(** * MTS_BELARUS: the provider loaders of [mts/dataset/load_data.py]

    A shallow embedding of the four loader classes ([AlfaLoader],
    [BpsLoader], [InstallmentLoader], [LizingLoader]) together with the
    fragment of pandas they call, and the properties of the loaders that
    the specification states. *)

From Stdlib Require Import ZArith String Ascii List Lia Bool.
From stdpp Require Import base option list strings gmap.

Local Open Scope string_scope.
Local Open Scope Z_scope.
Local Open Scope list_scope.

(** ** Exceptions

    Every exception raised in the loaders is an instance of a subclass of
    Python's [Exception].  [exn_str] is what [str(e)] returns. *)

Inductive exn_class :=
  | KeyError
  | FileNotFoundError
  | ValueError
  | EmptyDataError.

Record exn := Exn { exn_cls : exn_class; exn_str : string }.

Inductive outcome (A : Type) :=
  | Return (a : A)
  | Raise (e : exn).
Arguments Return {A} a.
Arguments Raise {A} e.

(** [repr] of a string without quotes or escapes inside. *)
Definition py_repr (s : string) : string := "'" +:+ s +:+ "'".

(** [repr] of a list of such strings. *)
Definition py_list_repr (l : list string) : string :=
  "[" +:+ String.concat ", " (map py_repr l) +:+ "]".

(** ** Data frames

    A pandas [DataFrame] is a row index and an ordered list of labelled
    columns; a label may occur more than once.  Cells are the scalar
    kinds the loaders meet. *)

Inductive value :=
  | VInt (z : Z)
  | VStr (s : string)
  | VDate (y m d : Z)
  | VNA.

Definition column : Type := string * list value.

Record DataFrame := mkDF { index : list Z; columns : list column }.

Definition labels (df : DataFrame) : list string := (columns df).*1.

Definition nrows (df : DataFrame) : nat := length (index df).

(** The [i]-th row, read across the columns. *)
Definition row (i : nat) (df : DataFrame) : list value :=
  map (fun c : column => nth i (snd c) VNA) (columns df).

#[global] Instance value_eq_dec : EqDecision value.
Proof. solve_decision. Defined.

#[global] Instance DataFrame_eq_dec : EqDecision DataFrame.
Proof. solve_decision. Defined.

(** ** The pandas operations on frames that the loaders use *)

(** [df.rename(columns=mapper)]: each label found in [mapper] is replaced,
    every other label is kept; a key of [mapper] that labels no column is
    ignored. *)
Definition rename_label (mapper : gmap string string) (l : string) : string :=
  default l (mapper !! l).

Definition rename (mapper : gmap string string) (df : DataFrame) : DataFrame :=
  mkDF (index df) ((fun c : column => (rename_label mapper (fst c), snd c)) <$> columns df).

(** All the columns that carry label [l], in frame order. *)
Definition labelled (l : string) (cols : list column) : list column :=
  filter (fun c : column => fst c = l) cols.

Definition missing_labels (key : list string) (cols : list column) : list string :=
  filter (fun l => labelled l cols = []) key.

Definition take_columns (key : list string) (cols : list column) : list column :=
  key ≫= (fun l => labelled l cols).

(** What [str(e)] is for the [KeyError] that pandas 2 raises when the
    labels [miss] of [key] label no column: the message names all of [key]
    when none of it is found and the missing labels otherwise, and, having
    apostrophes inside, it is shown between double quotes. *)
Definition missing_columns_message (key miss : list string) : string :=
  if decide (miss = key)
  then "None of [Index(" +:+ py_list_repr key +:+ ", dtype='object')] are in the [columns]"
  else py_list_repr miss +:+ " not in index".

Definition missing_columns_str (key miss : list string) : string :=
  String "034" (missing_columns_message key miss +:+ String "034" EmptyString).

(** [df[key]] and [df.loc[:, key]] for a list [key] of labels: all rows,
    and for each label of [key] in turn every column so labelled; a label
    of [key] that labels no column raises [KeyError]. *)
Definition getitem_columns (key : list string) (df : DataFrame) : outcome DataFrame :=
  match missing_labels key (columns df) with
  | [] => Return (mkDF (index df) (take_columns key (columns df)))
  | miss => Raise (Exn KeyError (missing_columns_str key miss))
  end.

Definition loc_columns (key : list string) (df : DataFrame) : outcome DataFrame :=
  getitem_columns key df.

(** ** Worlds and the loader monad

    A loader runs against the files on disk, writes lines to standard
    output and allocates frames; it returns normally or raises. *)

Record World := mkWorld {
  files : gmap string string;
  stdout : list string;
  heap : list DataFrame
}.

Definition M (A : Type) : Type := World -> outcome A * World.

Definition ret {A} (a : A) : M A := fun w => (Return a, w).

Definition bind {A B} (m : M A) (k : A -> M B) : M B :=
  fun w => match m w with
           | (Return a, w') => k a w'
           | (Raise e, w') => (Raise e, w')
           end.

Definition lift {A} (o : outcome A) : M A := fun w => (o, w).

Notation "x <- m ;; k" := (bind m (fun x => k))
  (at level 100, m at next level, right associativity).
Notation "m ;;; k" := (bind m (fun _ => k))
  (at level 100, right associativity).

(** [try: body except Exception as e: handler e]. *)
Definition try_except {A} (body : M A) (handler : exn -> M A) : M A :=
  fun w => match body w with
           | (Return a, w') => (Return a, w')
           | (Raise e, w') => handler e w'
           end.

(** [print(s)]: one more line on standard output. *)
Definition py_print (s : string) : M unit :=
  fun w => (Return tt, mkWorld (files w) (stdout w ++ [s]) (heap w)).

(** [d[k]] on a dict. *)
Definition dict_getitem (d : gmap string string) (k : string) : outcome string :=
  match d !! k with
  | Some v => Return v
  | None => Raise (Exn KeyError (py_repr k))
  end.

(** Binding inside [outcome]. *)
Definition obind {A B} (o : outcome A) (k : A -> outcome B) : outcome B :=
  match o with
  | Return a => k a
  | Raise e => Raise e
  end.

(** Opening a file for reading consults the files and changes nothing. *)
Definition open_file (fs : gmap string string) (path : string) : outcome string :=
  match fs !! path with
  | Some content => Return content
  | None => Raise (Exn FileNotFoundError
                     ("[Errno 2] No such file or directory: " +:+ py_repr path))
  end.

Definition with_files {A} (f : gmap string string -> outcome A) : M A :=
  fun w => (f (files w), w).

(** ** The pandas readers

    What pandas decodes by its own rules is left to an interface: the
    decoding of a workbook's sheet (taking row [header] as the labels;
    pandas makes repeated labels distinct), the recognition of dates in a
    column of text, which gives up on a column it cannot read, and the
    reading of every delimited file outside the plain ones described
    below (quoted fields, carriage returns, other bytes, ragged records,
    integers in other spellings or beyond 64 bits), of which only this is
    used: a successful read restricted to [usecols] returns these columns
    and no others. *)

Inductive dtype := Int64 | StringDtype.

Class Pandas := {
  parse_sheet : string -> string -> nat -> outcome DataFrame;
  to_datetime : list value -> option (list value);
  read_csv_other :
    string -> ascii -> list string -> gmap string dtype -> list string -> outcome DataFrame;
  parse_sheet_mangled :
    forall content sheet header df,
      parse_sheet content sheet header = Return df -> NoDup (labels df);
  read_csv_other_usecols :
    forall content sep usecols dtypes parse_dates df,
      read_csv_other content sep usecols dtypes parse_dates = Return df ->
      NoDup (labels df) /\ forall l, l ∈ labels df <-> l ∈ usecols
}.

(** [pd.read_excel(path, sheet_name=..., header=...)]. *)
Definition read_excel_in `{Pandas} (fs : gmap string string) (path sheet_name : string)
    (header : nat) : outcome DataFrame :=
  obind (open_file fs path) (fun content => parse_sheet content sheet_name header).

Definition read_excel `{Pandas} (path sheet_name : string) (header : nat) : M DataFrame :=
  with_files (fun fs => read_excel_in fs path sheet_name header).

(** The fields of [s] between occurrences of [sep]. *)
Fixpoint split_on (sep : ascii) (s : string) : list string :=
  match s with
  | EmptyString => [EmptyString]
  | String c r =>
      if Ascii.eqb c sep then EmptyString :: split_on sep r
      else match split_on sep r with
           | f :: fs => String c f :: fs
           | [] => [String c EmptyString]
           end
  end.

(** Plain text: line feeds and printable ASCII other than the double
    quote. *)
Definition plain_char (c : ascii) : bool :=
  let n := nat_of_ascii c in
  (n =? 10)%nat || ((32 <=? n)%nat && (n <=? 126)%nat && negb (n =? 34)%nat).

Definition plain_text (s : string) : bool :=
  forallb plain_char (list_ascii_of_string s).

(** A line of blanks only, the empty line among them; pandas skips it. *)
Definition blank_line (l : string) : bool :=
  forallb (fun c => Ascii.eqb c " " || Ascii.eqb c "009") (list_ascii_of_string l).

(** The lines of a delimited file that are not skipped: the header line
    and the records. *)
Definition csv_lines (content : string) : list string :=
  filter (fun l => blank_line l = false) (split_on "010" content).

(** The header has distinct labels without blanks, and every record has
    as many fields as the header. *)
Definition well_shaped (sep : ascii) (header_line : string) (body : list string) : Prop :=
  NoDup (split_on sep header_line) /\
  (" "%char ∉ list_ascii_of_string header_line) /\
  Forall (fun r => length (split_on sep r) = length (split_on sep header_line)) body.

#[global] Instance well_shaped_dec sep header_line body :
  Decision (well_shaped sep header_line body).
Proof. unfold well_shaped. apply _. Defined.

Definition int64_min : Z := - 2 ^ 63.
Definition int64_max : Z := 2 ^ 63 - 1.

Definition is_int64 (v : value) : Prop :=
  match v with
  | VInt z => int64_min <= z <= int64_max
  | _ => False
  end.

Definition digit_of (c : ascii) : option Z :=
  let n := Z.of_nat (nat_of_ascii c) in
  if (48 <=? n) && (n <=? 57) then Some (n - 48) else None.

Fixpoint digits_to_Z (acc : Z) (s : string) : option Z :=
  match s with
  | EmptyString => Some acc
  | String c r =>
      match digit_of c with
      | Some d => digits_to_Z (10 * acc + d) r
      | None => None
      end
  end.

(** The integer that a field spells in the plainest way: decimal digits
    after an optional minus sign, and nothing else. *)
Definition parse_int (s : string) : option Z :=
  match s with
  | EmptyString => None
  | String "-" (String _ _ as r) => Z.opp <$> digits_to_Z 0 r
  | _ => digits_to_Z 0 s
  end.

(** Such a field when the integer fits the signed 64 bits. *)
Definition int64_literal (s : string) : option Z :=
  match parse_int s with
  | Some z => if (int64_min <=? z) && (z <=? int64_max) then Some z else None
  | None => None
  end.

(** The field of a record at position [i]. *)
Definition field (sep : ascii) (i : nat) (record : string) : string :=
  nth i (split_on sep record) EmptyString.

(** The texts pandas reads as a missing value. *)
Definition na_values : list string :=
  [EmptyString; "#N/A"; "#N/A N/A"; "#NA"; "-1.#IND"; "-1.#QNAN"; "-NaN"; "-nan"; "1.#IND";
   "1.#QNAN"; "<NA>"; "N/A"; "NA"; "NULL"; "NaN"; "None"; "n/a"; "nan"; "null"].

(** A cell of a plain file under the [dtype] given for its column: an
    [int64] cell from a plain integer, a text cell from any field.  There
    is no answer here for an [int64] field in another spelling nor for a
    column without [dtype], whose type pandas infers. *)
Definition text_cell (s : string) : value :=
  if decide (s ∈ na_values) then VNA else VStr s.

Definition convert_cell (dt : option dtype) (s : string) : option value :=
  match dt with
  | Some Int64 => VInt <$> int64_literal s
  | Some StringDtype => Some (text_cell s)
  | None => None
  end.

(** The columns of a header by position, each label at its first
    occurrence. *)
Fixpoint first_occurrences (seen : list string) (i : nat) (header : list string)
  : list (nat * string) :=
  match header with
  | [] => []
  | l :: r =>
      if decide (l ∈ seen) then first_occurrences seen (S i) r
      else (i, l) :: first_occurrences (l :: seen) (S i) r
  end.

Definition parse_date_column `{Pandas} (parse_dates : list string) (l : string)
    (cells : list value) : list value :=
  if decide (l ∈ parse_dates) then default cells (to_datetime cells) else cells.

Definition read_column `{Pandas} (sep : ascii) (dtypes : gmap string dtype)
    (parse_dates : list string) (body : list string) (il : nat * string) : option column :=
  match mapM (convert_cell (dtypes !! snd il)) (field sep (fst il) <$> body) with
  | Some cells => Some (snd il, parse_date_column parse_dates (snd il) cells)
  | None => None
  end.

(** The reading of a plain delimited file: blank lines are skipped and
    the first of the others is the header.  A file without such a line
    and a header without one of [usecols] are errors; otherwise the frame
    has one row per record and the columns of [usecols] in file order.
    [None] when the file is not plain, not well shaped, or has a cell
    without an answer above. *)
Definition parse_csv_plain `{Pandas} (content : string) (sep : ascii)
    (usecols : list string) (dtypes : gmap string dtype) (parse_dates : list string)
  : option (outcome DataFrame) :=
  if plain_text content then
    match csv_lines content with
    | [] => Some (Raise (Exn EmptyDataError "No columns to parse from file"))
    | header_line :: body =>
        let header := split_on sep header_line in
        if decide (well_shaped sep header_line body) then
          match filter (fun u => u ∉ header) usecols with
          | [] =>
              let picked := filter (fun il : nat * string => snd il ∈ usecols)
                                   (first_occurrences [] 0 header) in
              match mapM (read_column sep dtypes parse_dates body) picked with
              | Some cols => Some (Return (mkDF (seqZ 0 (Z.of_nat (length body))) cols))
              | None => None
              end
          | miss =>
              Some (Raise (Exn ValueError
                             ("Usecols do not match columns, columns expected but not found: "
                              +:+ py_list_repr miss)))
          end
        else None
    end
  else None.

(** The content of a delimited file as pandas reads it. *)
Definition parse_csv `{Pandas} (content : string) (sep : ascii) (usecols : list string)
    (dtypes : gmap string dtype) (parse_dates : list string) : outcome DataFrame :=
  match parse_csv_plain content sep usecols dtypes parse_dates with
  | Some result => result
  | None => read_csv_other content sep usecols dtypes parse_dates
  end.

(** [pd.read_csv(path, sep=..., usecols=..., dtype=..., parse_dates=...,
    low_memory=False)]. *)
Definition read_csv_in `{Pandas} (fs : gmap string string) (path : string) (sep : ascii)
    (usecols : list string) (dtypes : gmap string dtype) (parse_dates : list string)
  : outcome DataFrame :=
  obind (open_file fs path)
        (fun content => parse_csv content sep usecols dtypes parse_dates).

Definition read_csv `{Pandas} (path : string) (sep : ascii) (usecols : list string)
    (dtypes : gmap string dtype) (parse_dates : list string) : M DataFrame :=
  with_files (fun fs => read_csv_in fs path sep usecols dtypes parse_dates).

(** ** The loaders

    [paths] is the dict that [DataLoader.__init__] stores in [self.paths].
    Each entry point is its [try] block under its [except] clause. *)

Module AlfaLoader.

Definition mapper : gmap string string :=
  list_to_map [("Phone", "phone_number"); ("Date", "date");
               ("Identification number", "identify")].

Definition selected : list string := ["date"; "phone_number"; "identify"].

Definition _clean_data (df : DataFrame) : outcome DataFrame :=
  let df_cleaned := rename mapper df in
  loc_columns selected df_cleaned.

Definition load_alfa_try `{Pandas} (paths : gmap string string) : M (option DataFrame) :=
  py_print "Loading Alfa data..." ;;;
  path <- lift (dict_getitem paths "alfa") ;;
  alfa_data <- read_excel path "Sheet1" 0 ;;
  py_print "Alfa data loaded successfully." ;;;
  py_print "Cleaning Alfa data..." ;;;
  cleaned_alfa_data <- lift (_clean_data alfa_data) ;;
  py_print "Alfa data cleaned successfully." ;;;
  ret (Some cleaned_alfa_data).

Definition load_alfa_except (e : exn) : M (option DataFrame) :=
  py_print ("Error while loading or cleaning Alfa data: " +:+ exn_str e) ;;;
  ret None.

Definition load_alfa_data `{Pandas} (paths : gmap string string) : M (option DataFrame) :=
  try_except (load_alfa_try paths) load_alfa_except.

End AlfaLoader.

Module BpsLoader.

Definition columns_to_use : list string := ["TEL"; "APLCTN_DT"].

Definition data_types : gmap string dtype :=
  list_to_map [("TEL", Int64); ("APLCTN_DT", StringDtype)].

Definition parse_dates : list string := ["APLCTN_DT"].

Definition _read_data `{Pandas} (csv_file_path : string) : M DataFrame :=
  read_csv csv_file_path ";" columns_to_use data_types parse_dates.

Definition renamed_columns : gmap string string :=
  list_to_map [("TEL", "phone_number"); ("APLCTN_DT", "date")].

Definition selected_columns : list string := ["date"; "phone_number"].

(** The copy of [input_df] is private to the call, so renaming it in
    place is renaming a value; [BpsHeap] below has the references. *)
Definition _clean_data (input_df : DataFrame) : outcome DataFrame :=
  let df := input_df in
  let df := rename renamed_columns df in
  getitem_columns selected_columns df.

Definition load_bps_try `{Pandas} (paths : gmap string string) : M (option DataFrame) :=
  py_print "Loading BPS data..." ;;;
  path <- lift (dict_getitem paths "bps") ;;
  data_df <- _read_data path ;;
  py_print "Data loaded successfully." ;;;
  py_print "Cleaning BPS data..." ;;;
  cleaned_df <- lift (_clean_data data_df) ;;
  py_print "Data cleaned successfully." ;;;
  (* cleaned_df.copy(): the same data; BpsHeap has the new reference *)
  let bps_train_df := cleaned_df in
  ret (Some bps_train_df).

(** [print(a, b)] separates its arguments by one space. *)
Definition load_bps_except (e : exn) : M (option DataFrame) :=
  py_print ("An error occurred during data processing:" +:+ " " +:+ exn_str e) ;;;
  ret None.

Definition load_bps_data `{Pandas} (paths : gmap string string) : M (option DataFrame) :=
  try_except (load_bps_try paths) load_bps_except.

End BpsLoader.

Module InstallmentLoader.

Definition phone_label : string := "Действующий абонентский номер".
Definition date_label : string := "Дата продажи".

Definition mapper : gmap string string :=
  list_to_map [(phone_label, "phone_number"); (date_label, "date")].

Definition selected : list string := ["date"; "phone_number"].

Definition _clean_data (input_df : DataFrame) : outcome DataFrame :=
  let cleaned_df := rename mapper input_df in
  loc_columns selected cleaned_df.

Definition load_installment_try `{Pandas} (paths : gmap string string)
  : M (option DataFrame) :=
  py_print "Loading Installment data..." ;;;
  path <- lift (dict_getitem paths "installment") ;;
  new_data <- read_excel path "Лист1" 0 ;;
  new_data <- lift (getitem_columns [phone_label; date_label] new_data) ;;
  py_print "Data loaded successfully." ;;;
  py_print "Cleaning Lizing data..." ;;;
  train_df_installment <- lift (_clean_data new_data) ;;
  py_print "Data cleaned successfully." ;;;
  ret (Some train_df_installment).

Definition load_installment_except (e : exn) : M (option DataFrame) :=
  py_print ("An error occurred during data processing:" +:+ " " +:+ exn_str e) ;;;
  ret None.

Definition load_installment_data `{Pandas} (paths : gmap string string)
  : M (option DataFrame) :=
  try_except (load_installment_try paths) load_installment_except.

End InstallmentLoader.

Module LizingLoader.

Definition phone_label : string := "Мобильный телефон".
Definition date_label : string := "Дата заключения".

Definition mapper : gmap string string :=
  list_to_map [(phone_label, "phone_number"); (date_label, "date")].

Definition selected : list string := ["date"; "phone_number"].

Definition _clean_data (df : DataFrame) : outcome DataFrame :=
  let train_df := rename mapper df in
  loc_columns selected train_df.

Definition load_lizing_try `{Pandas} (paths : gmap string string) : M (option DataFrame) :=
  py_print "Loading Lizing data..." ;;;
  path <- lift (dict_getitem paths "lizing") ;;
  new_data <- read_excel path "Sheet1" 0 ;;
  py_print "Data loaded successfully." ;;;
  py_print "Cleaning Lizing data..." ;;;
  train_df_lizing <- lift (_clean_data new_data) ;;
  py_print "Data cleaned successfully." ;;;
  ret (Some train_df_lizing).

Definition load_lizing_except (e : exn) : M (option DataFrame) :=
  py_print ("An error occurred during data processing:" +:+ " " +:+ exn_str e) ;;;
  ret None.

Definition load_lizing_data `{Pandas} (paths : gmap string string) : M (option DataFrame) :=
  try_except (load_lizing_try paths) load_lizing_except.

End LizingLoader.

(** ** The BPS loader over references

    The BPS loader copies frames and renames one in place.  Here a frame
    is a reference into the heap of the world, and each pandas call that
    builds a frame allocates it. *)

Module BpsHeap.

Definition ref : Type := nat.

Definition alloc (df : DataFrame) : M ref :=
  fun w => (Return (length (heap w)), mkWorld (files w) (stdout w) (heap w ++ [df])).

Definition deref (r : ref) : M DataFrame :=
  fun w => (Return (default (mkDF [] []) (heap w !! r)), w).

Definition store (r : ref) (df : DataFrame) : M unit :=
  fun w => (Return tt, mkWorld (files w) (stdout w) (<[r := df]> (heap w))).

(** [df.copy()]: a new frame with the same data. *)
Definition copy (r : ref) : M ref :=
  df <- deref r ;; alloc df.

(** [df.rename(columns=mapper, inplace=True)]. *)
Definition rename_inplace (mapper : gmap string string) (r : ref) : M unit :=
  df <- deref r ;; store r (rename mapper df).

(** [df[key]]: a new frame. *)
Definition getitem_columns_ref (key : list string) (r : ref) : M ref :=
  df <- deref r ;;
  out <- lift (getitem_columns key df) ;;
  alloc out.

Definition _read_data `{Pandas} (csv_file_path : string) : M ref :=
  df <- BpsLoader._read_data csv_file_path ;;
  alloc df.

Definition _clean_data (input_df : ref) : M ref :=
  df <- copy input_df ;;
  rename_inplace BpsLoader.renamed_columns df ;;;
  df <- getitem_columns_ref BpsLoader.selected_columns df ;;
  ret df.

(** The [try] block up to the cleaned frame. *)
Definition load_bps_cleaned `{Pandas} (paths : gmap string string) : M ref :=
  py_print "Loading BPS data..." ;;;
  path <- lift (dict_getitem paths "bps") ;;
  data_df <- _read_data path ;;
  py_print "Data loaded successfully." ;;;
  py_print "Cleaning BPS data..." ;;;
  cleaned_df <- _clean_data data_df ;;
  py_print "Data cleaned successfully." ;;;
  ret cleaned_df.

Definition load_bps_try `{Pandas} (paths : gmap string string) : M (option ref) :=
  cleaned_df <- load_bps_cleaned paths ;;
  bps_train_df <- copy cleaned_df ;;
  ret (Some bps_train_df).

Definition load_bps_except (e : exn) : M (option ref) :=
  py_print ("An error occurred during data processing:" +:+ " " +:+ exn_str e) ;;;
  ret None.

Definition load_bps_data `{Pandas} (paths : gmap string string) : M (option ref) :=
  try_except (load_bps_try paths) load_bps_except.

End BpsHeap.

(** ** The four variants side by side *)

Inductive variant := Alfa | Bps | Installment | Lizing.

Definition config_key (v : variant) : string :=
  match v with
  | Alfa => "alfa"
  | Bps => "bps"
  | Installment => "installment"
  | Lizing => "lizing"
  end.

Definition canonical (v : variant) : list string :=
  match v with
  | Alfa => AlfaLoader.selected
  | Bps => BpsLoader.selected_columns
  | Installment => InstallmentLoader.selected
  | Lizing => LizingLoader.selected
  end.

Definition mapper_of (v : variant) : gmap string string :=
  match v with
  | Alfa => AlfaLoader.mapper
  | Bps => BpsLoader.renamed_columns
  | Installment => InstallmentLoader.mapper
  | Lizing => LizingLoader.mapper
  end.

Definition clean (v : variant) : DataFrame -> outcome DataFrame :=
  match v with
  | Alfa => AlfaLoader._clean_data
  | Bps => BpsLoader._clean_data
  | Installment => InstallmentLoader._clean_data
  | Lizing => LizingLoader._clean_data
  end.

Definition try_block `{Pandas} (v : variant) : gmap string string -> M (option DataFrame) :=
  match v with
  | Alfa => AlfaLoader.load_alfa_try
  | Bps => BpsLoader.load_bps_try
  | Installment => InstallmentLoader.load_installment_try
  | Lizing => LizingLoader.load_lizing_try
  end.

Definition except_block (v : variant) : exn -> M (option DataFrame) :=
  match v with
  | Alfa => AlfaLoader.load_alfa_except
  | Bps => BpsLoader.load_bps_except
  | Installment => InstallmentLoader.load_installment_except
  | Lizing => LizingLoader.load_lizing_except
  end.

Definition entry_point `{Pandas} (v : variant) : gmap string string -> M (option DataFrame) :=
  match v with
  | Alfa => AlfaLoader.load_alfa_data
  | Bps => BpsLoader.load_bps_data
  | Installment => InstallmentLoader.load_installment_data
  | Lizing => LizingLoader.load_lizing_data
  end.

(** The source labels that the clean step of a variant renames. *)
Definition source_labels (v : variant) : list string :=
  match v with
  | Alfa => ["Phone"; "Date"; "Identification number"]
  | Bps => ["TEL"; "APLCTN_DT"]
  | Installment => [InstallmentLoader.phone_label; InstallmentLoader.date_label]
  | Lizing => [LizingLoader.phone_label; LizingLoader.date_label]
  end.

(** The raw record set that the [try] block hands to the clean step, as
    read from the files [fs]. *)
Definition read_in `{Pandas} (v : variant) (fs : gmap string string) (path : string)
  : outcome DataFrame :=
  match v with
  | Alfa => read_excel_in fs path "Sheet1" 0
  | Bps => read_csv_in fs path ";" BpsLoader.columns_to_use BpsLoader.data_types
                       BpsLoader.parse_dates
  | Installment =>
      obind (read_excel_in fs path "Лист1" 0)
            (getitem_columns [InstallmentLoader.phone_label; InstallmentLoader.date_label])
  | Lizing => read_excel_in fs path "Sheet1" 0
  end.

(** Key lookup, read and clean in sequence, without the printing. *)
Definition attempt `{Pandas} (v : variant) (paths fs : gmap string string)
  : outcome DataFrame :=
  obind (dict_getitem paths (config_key v))
        (fun path => obind (read_in v fs path) (clean v)).

(** The text that the [except] clause puts before the description of the
    caught exception, and the line it prints for [e]. *)
Definition error_prefix (v : variant) : string :=
  match v with
  | Alfa => "Error while loading or cleaning Alfa data: "
  | Bps | Installment | Lizing => "An error occurred during data processing: "
  end.

Definition diagnostic (v : variant) (e : exn) : string :=
  error_prefix v +:+ exn_str e.

(** The name of a provider as its loader writes it. *)
Definition variant_name (v : variant) : string :=
  match v with
  | Alfa => "Alfa"
  | Bps => "BPS"
  | Installment => "Installment"
  | Lizing => "Lizing"
  end.

Fixpoint contains (needle hay : string) : bool :=
  if String.prefix needle hay then true
  else match hay with
       | EmptyString => false
       | String _ rest => contains needle rest
       end.

(** ** A backend for fixtures

    Workbooks are given by a table from file content and sheet name to
    the frame they decode to; the one date format known is YYYY-MM-DD, and
    a delimited file that is not plain is refused. *)

Definition leap_year (y : Z) : bool :=
  ((y mod 4 =? 0) && negb (y mod 100 =? 0)) || (y mod 400 =? 0).

Definition days_in_month (y m : Z) : Z :=
  if m =? 2 then (if leap_year y then 29 else 28)
  else if (m =? 4) || (m =? 6) || (m =? 9) || (m =? 11) then 30
  else 31.

Definition parse_iso_date (s : string) : option value :=
  match split_on "-" s with
  | [y; m; d] =>
      if decide (String.length y = 4%nat /\ String.length m = 2%nat /\ String.length d = 2%nat)
      then
        match digits_to_Z 0 y, digits_to_Z 0 m, digits_to_Z 0 d with
        | Some y, Some m, Some d =>
            if (1 <=? m) && (m <=? 12) && (1 <=? d) && (d <=? days_in_month y m)
            then Some (VDate y m d)
            else None
        | _, _, _ => None
        end
      else None
  | _ => None
  end.

Definition iso_cell (v : value) : option value :=
  match v with
  | VStr s => parse_iso_date s
  | VNA => Some VNA
  | _ => None
  end.

Definition iso_to_datetime (cells : list value) : option (list value) :=
  mapM iso_cell cells.

Definition fixture_parse_sheet (book : list (string * string * DataFrame))
    (content sheet : string) (header : nat) : outcome DataFrame :=
  match find (fun e : string * string * DataFrame =>
                bool_decide (e.1.1 = content /\ e.1.2 = sheet)) book with
  | Some (_, df) =>
      if decide (NoDup (labels df)) then Return df
      else Raise (Exn ValueError "duplicate labels")
  | None => Raise (Exn ValueError ("Worksheet named " +:+ py_repr sheet +:+ " not found"))
  end.

Definition fixture_backend (book : list (string * string * DataFrame)) : Pandas.
Proof.
  refine {| parse_sheet := fixture_parse_sheet book;
            to_datetime := iso_to_datetime;
            read_csv_other := fun _ _ _ _ _ => Raise (Exn ValueError "not a plain file") |}.
  - intros content sheet header df. unfold fixture_parse_sheet.
    destruct (find _ book) as [[k d]|]; [|discriminate].
    destruct (decide (NoDup (labels d))); [|discriminate].
    intros [= <-]. assumption.
  - discriminate.
Defined.

(** The BPS file with the one record 5551234;2024-01-01 and no column PD. *)
Definition bps_fixture : string := "TEL;APLCTN_DT
5551234;2024-01-01
".

(** The same record in a file that has the column PD as well. *)
Definition bps_fixture_pd : string := "TEL;APLCTN_DT;PD
5551234;2024-01-01;3
".

(** A world with the given files, nothing printed and nothing allocated. *)
Definition world_of (fs : list (string * string)) : World :=
  mkWorld (list_to_map fs) [] [].


(** The lines that the [try] block of a variant prints, in order. *)
Definition progress_lines (v : variant) : list string :=
  match v with
  | Alfa => ["Loading Alfa data..."; "Alfa data loaded successfully.";
             "Cleaning Alfa data..."; "Alfa data cleaned successfully."]
  | Bps => ["Loading BPS data..."; "Data loaded successfully.";
            "Cleaning BPS data..."; "Data cleaned successfully."]
  | Installment => ["Loading Installment data..."; "Data loaded successfully.";
                    "Cleaning Lizing data..."; "Data cleaned successfully."]
  | Lizing => ["Loading Lizing data..."; "Data loaded successfully.";
               "Cleaning Lizing data..."; "Data cleaned successfully."]
  end.

(** The date cells of the BPS file: the text of the fields, read as dates
    where the column can be. *)
Definition bps_date_cells `{Pandas} (j : nat) (body : list string) : list value :=
  let texts := text_cell <$> (field ";" j <$> body) in
  default texts (to_datetime texts).

(** A frame is rectangular when every column has one cell per row. *)
Definition rectangular (df : DataFrame) : Prop :=
  Forall (fun c : column => length c.2 = nrows df) (columns df).

(** * Properties *)

(** ** Frames *)

Lemma labelled_app l (xs ys : list column) :
  labelled l (xs ++ ys) = labelled l xs ++ labelled l ys.
Proof. apply filter_app. Qed.

Lemma labelled_labelled l l' (cols : list column) :
  labelled l' (labelled l cols) = if decide (l = l') then labelled l cols else [].
Proof.
  unfold labelled. induction cols as [|c cols IH]; [by case_decide|].
  rewrite (filter_cons _ c). destruct (decide (c.1 = l)) as [Hc|Hc].
  - rewrite (filter_cons _ c), IH.
    destruct (decide (l = l')) as [->|Hne].
    + by rewrite decide_True.
    + by rewrite decide_False by congruence.
  - rewrite IH. by destruct (decide (l = l')).
Qed.

Lemma take_columns_cons k key (cols : list column) :
  take_columns (k :: key) cols = labelled k cols ++ take_columns key cols.
Proof. reflexivity. Qed.

Lemma labelled_take_notin l key (cols : list column) :
  l ∉ key -> labelled l (take_columns key cols) = [].
Proof.
  induction key as [|k key IH]; intros Hl; [reflexivity|].
  rewrite take_columns_cons, labelled_app, labelled_labelled.
  rewrite decide_False by (intros ->; apply Hl; left).
  apply IH. intros H; apply Hl; right; assumption.
Qed.

Lemma labelled_take l key (cols : list column) :
  NoDup key -> l ∈ key -> labelled l (take_columns key cols) = labelled l cols.
Proof.
  induction key as [|k key IH]; intros Hnd Hl.
  - inversion Hl.
  - apply NoDup_cons in Hnd as [Hk Hnd].
    rewrite take_columns_cons, labelled_app, labelled_labelled.
    destruct (decide (k = l)) as [->|Hne].
    + rewrite labelled_take_notin by assumption. apply app_nil_r.
    + apply IH; [assumption|].
      apply elem_of_cons in Hl as [->|Hl]; [congruence|assumption].
Qed.

Lemma take_columns_idem key (cols : list column) :
  NoDup key -> take_columns key (take_columns key cols) = take_columns key cols.
Proof.
  intros Hnd.
  assert (forall ks, ks ⊆ key ->
            take_columns ks (take_columns key cols) = take_columns ks cols) as Hks.
  { induction ks as [|k ks IH]; intros Hsub; [reflexivity|].
    rewrite !take_columns_cons.
    rewrite labelled_take by (try assumption; apply Hsub; left).
    f_equal. apply IH. intros x Hx. apply Hsub. right. assumption. }
  apply Hks. reflexivity.
Qed.

Lemma elem_of_take_columns c key (cols : list column) :
  c ∈ take_columns key cols <-> c ∈ cols /\ c.1 ∈ key.
Proof.
  unfold take_columns. rewrite list_elem_of_bind. split.
  - intros (l & Hc & Hl). apply list_elem_of_filter in Hc as [Heq Hc].
    simpl in Heq. subst l. auto.
  - intros [Hc Hk]. exists c.1. split; [|assumption].
    apply list_elem_of_filter. auto.
Qed.

Lemma labelled_nil_iff l (cols : list column) :
  labelled l cols = [] <-> l ∉ cols.*1.
Proof.
  unfold labelled. split.
  - intros Hnil Hin. apply list_elem_of_fmap in Hin as (c & -> & Hc).
    assert (c ∈ filter (fun c0 : column => c0.1 = c.1) cols) as Hf
      by (apply list_elem_of_filter; auto).
    rewrite Hnil in Hf. inversion Hf.
  - intros Hnot. destruct (filter _ cols) as [|c r] eqn:Hf; [reflexivity|].
    exfalso. apply Hnot.
    assert (c ∈ filter (fun c0 : column => c0.1 = l) cols) as Hc by (rewrite Hf; left).
    apply list_elem_of_filter in Hc as [<- Hc]. by apply list_elem_of_fmap_2.
Qed.

Lemma missing_labels_nil key (cols : list column) :
  missing_labels key cols = [] <-> forall l, l ∈ key -> l ∈ cols.*1.
Proof.
  unfold missing_labels. split.
  - intros Hnil l Hl. destruct (decide (l ∈ cols.*1)) as [|Hn]; [assumption|].
    apply labelled_nil_iff in Hn.
    assert (l ∈ filter (fun l0 => labelled l0 cols = []) key) as Hf
      by (apply list_elem_of_filter; auto).
    rewrite Hnil in Hf. inversion Hf.
  - intros Hall. destruct (filter _ key) as [|l r] eqn:Hf; [reflexivity|].
    exfalso.
    assert (l ∈ filter (fun l0 => labelled l0 cols = []) key) as Hl by (rewrite Hf; left).
    apply list_elem_of_filter in Hl as [Hnil Hl].
    apply labelled_nil_iff in Hnil. auto.
Qed.

(** What a successful selection returns. *)
Lemma getitem_columns_Return key df out :
  getitem_columns key df = Return out <->
  (forall l, l ∈ key -> l ∈ labels df) /\
  out = mkDF (index df) (take_columns key (columns df)).
Proof.
  unfold getitem_columns, labels. rewrite <- missing_labels_nil.
  destruct (missing_labels key (columns df)) as [|m ms]; split.
  - intros [= <-]. auto.
  - intros [_ ->]. reflexivity.
  - discriminate.
  - intros [[=] _].
Qed.

(** What a failed selection raises. *)
Lemma getitem_columns_Raise key df e :
  getitem_columns key df = Raise e ->
  exn_cls e = KeyError /\ exists l, l ∈ key /\ l ∉ labels df.
Proof.
  unfold getitem_columns, labels.
  destruct (missing_labels key (columns df)) as [|m ms] eqn:Hm; [discriminate|].
  intros [= <-]. split; [reflexivity|]. exists m.
  assert (m ∈ missing_labels key (columns df)) as Hin by (rewrite Hm; left).
  apply list_elem_of_filter in Hin as [Hnil Hin].
  apply labelled_nil_iff in Hnil. auto.
Qed.

Lemma labels_rename mapper df :
  labels (rename mapper df) = rename_label mapper <$> labels df.
Proof.
  unfold labels, rename. simpl. rewrite <- !list_fmap_compose. reflexivity.
Qed.

(** When no label is repeated, selection returns the key as labels. *)
Lemma labels_take_columns key (cols : list column) :
  NoDup cols.*1 -> (forall l, l ∈ key -> l ∈ cols.*1) ->
  (take_columns key cols).*1 = key.
Proof.
  intros Hnd Hall.
  assert (forall l, l ∈ cols.*1 -> (labelled l cols).*1 = [l]) as Hone.
  { clear Hall. unfold labelled. induction cols as [|c cols IH]; intros l Hl; [inversion Hl|].
    rewrite fmap_cons in Hnd, Hl. apply NoDup_cons in Hnd as [Hc Hnd].
    rewrite filter_cons. destruct (decide (c.1 = l)) as [<-|Hne].
    - rewrite fmap_cons. f_equal.
      apply labelled_nil_iff in Hc. unfold labelled in Hc. rewrite Hc. reflexivity.
    - apply IH; [assumption|]. apply elem_of_cons in Hl as [->|Hl]; [congruence|assumption]. }
  induction key as [|k key IH]; [reflexivity|].
  rewrite take_columns_cons, fmap_app, Hone by (apply Hall; left).
  simpl. f_equal. apply IH. intros l Hl. apply Hall. right. assumption.
Qed.

(** ** The clean steps *)

Lemma clean_unfold v df :
  clean v df = getitem_columns (canonical v) (rename (mapper_of v) df).
Proof. destruct v; reflexivity. Qed.

Lemma canonical_NoDup v : NoDup (canonical v).
Proof. destruct v; apply (bool_decide_unpack _); vm_compute; exact I. Qed.

(** No canonical name is a key of the renaming. *)
Lemma canonical_not_renamed v l :
  l ∈ canonical v -> rename_label (mapper_of v) l = l.
Proof.
  intros Hl. destruct v; simpl in Hl;
    repeat (apply elem_of_cons in Hl as [->|Hl]; [vm_compute; reflexivity|]);
    inversion Hl.
Qed.

Lemma clean_Return v df out :
  clean v df = Return out <->
  (forall l, l ∈ canonical v -> l ∈ rename_label (mapper_of v) <$> labels df) /\
  out = mkDF (index df)
             (take_columns (canonical v) (columns (rename (mapper_of v) df))).
Proof.
  rewrite clean_unfold, getitem_columns_Return, labels_rename. reflexivity.
Qed.

Lemma rename_fixes_canonical v idx (cols : list column) :
  (forall c, c ∈ cols -> c.1 ∈ canonical v) ->
  rename (mapper_of v) (mkDF idx cols) = mkDF idx cols.
Proof.
  intros Hall. unfold rename; simpl. f_equal.
  induction cols as [|c cols IH]; [reflexivity|].
  rewrite fmap_cons. f_equal.
  - destruct c as [l cells]. simpl. f_equal.
    apply canonical_not_renamed. apply (Hall (l, cells)). left.
  - apply IH. intros c' Hc'. apply Hall. right. assumption.
Qed.

(** ** The entry points *)

Ltac run_entry :=
  repeat match goal with
         | |- context [match ?x with _ => _ end] =>
             lazymatch x with
             | context [match _ with _ => _ end] => fail
             | _ => destruct x eqn:?; simpl
             end
         end.

(** An entry point returns what key lookup, read and clean give, and
    appends its progress lines and, on failure, its diagnostic. *)
Lemma entry_point_run `{Pandas} v paths w :
  exists progress,
    entry_point v paths w =
    match attempt v paths (files w) with
    | Return out =>
        (Return (Some out), mkWorld (files w) (stdout w ++ progress) (heap w))
    | Raise e =>
        (Return None,
         mkWorld (files w) (stdout w ++ progress ++ [diagnostic v e]) (heap w))
    end.
Proof.
  destruct v; unfold attempt, entry_point, read_in, clean, config_key;
    [ unfold AlfaLoader.load_alfa_data, AlfaLoader.load_alfa_try,
        AlfaLoader.load_alfa_except
    | unfold BpsLoader.load_bps_data, BpsLoader.load_bps_try,
        BpsLoader.load_bps_except, BpsLoader._read_data
    | unfold InstallmentLoader.load_installment_data,
        InstallmentLoader.load_installment_try,
        InstallmentLoader.load_installment_except
    | unfold LizingLoader.load_lizing_data, LizingLoader.load_lizing_try,
        LizingLoader.load_lizing_except ];
    unfold try_except, bind, lift, ret, py_print, read_excel, read_csv, with_files,
      dict_getitem; simpl;
    run_entry; simpl; rewrite <- ?app_assoc; simpl;
    first [ eexists [_]; reflexivity
          | eexists [_; _]; reflexivity
          | eexists [_; _; _]; reflexivity
          | eexists [_; _; _; _]; reflexivity ].
Qed.

Lemma entry_point_unfold `{Pandas} v paths :
  entry_point v paths = try_except (try_block v paths) (except_block v).
Proof. destruct v; reflexivity. Qed.

Lemma except_block_run v e w :
  except_block v e w =
  (Return None, mkWorld (files w) (stdout w ++ [diagnostic v e]) (heap w)).
Proof. destruct v; reflexivity. Qed.

Lemma entry_point_result `{Pandas} v paths w :
  fst (entry_point v paths w) =
  match attempt v paths (files w) with
  | Return out => Return (Some out)
  | Raise _ => Return None
  end.
Proof.
  destruct (entry_point_run v paths w) as [progress ->].
  destruct (attempt v paths (files w)); reflexivity.
Qed.

Lemma entry_point_files `{Pandas} v paths w :
  files (snd (entry_point v paths w)) = files w.
Proof.
  destruct (entry_point_run v paths w) as [progress ->].
  destruct (attempt v paths (files w)); reflexivity.
Qed.

Lemma read_in_ext `{Pandas} v (fs1 fs2 : gmap string string) path :
  fs1 !! path = fs2 !! path -> read_in v fs1 path = read_in v fs2 path.
Proof.
  intros Heq. destruct v; unfold read_in, read_excel_in, read_csv_in, open_file;
    rewrite Heq; reflexivity.
Qed.

Lemma read_in_missing `{Pandas} v (fs : gmap string string) path :
  fs !! path = None -> exists e, read_in v fs path = Raise e /\ exn_cls e = FileNotFoundError.
Proof.
  intros Hnone. destruct v; unfold read_in, read_excel_in, read_csv_in, open_file;
    rewrite Hnone; simpl; eexists; split; reflexivity.
Qed.

(** C1: whatever the variant, the configuration and the files, the entry
    point returns and never raises; whenever its [try] block raises, be it
    for a file that cannot be opened, content that cannot be decoded or a
    column that is missing, it returns [None]; in particular it returns
    [None] when the configured path names no file. *)
Theorem entry_point_never_raises `{Pandas} v paths w :
  (exists r w', entry_point v paths w = (Return r, w')) /\
  (forall e w', try_block v paths w = (Raise e, w') ->
     fst (entry_point v paths w) = Return None) /\
  (forall e, attempt v paths (files w) = Raise e ->
     fst (entry_point v paths w) = Return None) /\
  (forall path, paths !! config_key v = Some path -> files w !! path = None ->
     fst (entry_point v paths w) = Return None).
Proof.
  repeat split.
  - destruct (entry_point_run v paths w) as [progress ->].
    destruct (attempt v paths (files w)); eauto.
  - intros e w' Htry. rewrite entry_point_unfold. unfold try_except.
    rewrite Htry, except_block_run. reflexivity.
  - intros e He. rewrite entry_point_result, He. reflexivity.
  - intros path Hkey Hfile. rewrite entry_point_result.
    unfold attempt, dict_getitem. rewrite Hkey. simpl.
    destruct (read_in_missing v (files w) path Hfile) as (e & -> & _). reflexivity.
Qed.

Lemma entry_point_never_raises_witness :
  let paths : gmap string string := list_to_map [("alfa", "missing.xlsx")] in
  let w := world_of [] in
  paths !! config_key Alfa = Some "missing.xlsx" /\
  files w !! "missing.xlsx" = None /\
  fst (@entry_point (fixture_backend []) Alfa paths w) = Return None.
Proof.
  intros paths w. split; [reflexivity|]. split; [reflexivity|].
  apply (proj2 (proj2 (proj2
           (@entry_point_never_raises (fixture_backend []) Alfa paths w)))
           "missing.xlsx"); reflexivity.
Defined.

(** C10: when the configuration has no entry under the variant's key,
    the lookup fails inside the [try] block, which raises [KeyError]; the
    entry point catches it, prints its diagnostic and returns [None]. *)
Theorem missing_config_key_returns_none `{Pandas} v paths w :
  paths !! config_key v = None ->
  (exists w1, try_block v paths w
              = (Raise (Exn KeyError (py_repr (config_key v))), w1)) /\
  exists w', entry_point v paths w = (Return None, w') /\
             last (stdout w')
             = Some (diagnostic v (Exn KeyError (py_repr (config_key v)))).
Proof.
  intros Hkey.
  assert (exists w1, try_block v paths w
                     = (Raise (Exn KeyError (py_repr (config_key v))), w1)) as [w1 Htry].
  { destruct v; simpl in Hkey; eexists;
      unfold try_block, AlfaLoader.load_alfa_try, BpsLoader.load_bps_try,
        InstallmentLoader.load_installment_try, LizingLoader.load_lizing_try,
        bind, lift, py_print, dict_getitem; simpl; rewrite Hkey; reflexivity. }
  split; [eauto|].
  rewrite entry_point_unfold. unfold try_except. rewrite Htry, except_block_run.
  eexists. split; [reflexivity|]. simpl. apply last_snoc.
Qed.

Lemma missing_config_key_returns_none_witness :
  let paths : gmap string string := list_to_map [("alfa", "a.xlsx")] in
  paths !! config_key Lizing = None /\
  exists w', @entry_point (fixture_backend []) Lizing paths (world_of [])
             = (Return None, w') /\
             last (stdout w')
             = Some "An error occurred during data processing: 'lizing'".
Proof.
  intros paths. split; [reflexivity|].
  apply (@missing_config_key_returns_none (fixture_backend []) Lizing paths (world_of [])).
  reflexivity.
Defined.

(** C6: an entry point leaves the files as they are, and what it returns
    depends only on the configuration and on the content of the file at
    the configured path; so a second call after the first returns the same
    result, and so do calls in any two worlds that agree on that file. *)
Theorem entry_point_deterministic `{Pandas} v paths w1 w2 :
  (forall path, paths !! config_key v = Some path ->
                files w1 !! path = files w2 !! path) ->
  fst (entry_point v paths w1) = fst (entry_point v paths w2) /\
  files (snd (entry_point v paths w1)) = files w1 /\
  fst (entry_point v paths (snd (entry_point v paths w1)))
  = fst (entry_point v paths w1).
Proof.
  intros Hsame.
  assert (forall wa wb,
            (forall path, paths !! config_key v = Some path ->
                          files wa !! path = files wb !! path) ->
            fst (entry_point v paths wa) = fst (entry_point v paths wb)) as Hdet.
  { intros wa wb Hab. rewrite !entry_point_result. unfold attempt, dict_getitem.
    destruct (paths !! config_key v) as [path|] eqn:Hkey; [|reflexivity].
    simpl. rewrite (read_in_ext v (files wa) (files wb) path) by auto. reflexivity. }
  split; [auto|]. split; [apply entry_point_files|].
  apply Hdet. intros path _. rewrite entry_point_files. reflexivity.
Qed.

Lemma entry_point_deterministic_witness :
  let paths : gmap string string := list_to_map [("bps", "a.csv")] in
  let w1 := world_of [("a.csv", bps_fixture)] in
  let w2 := mkWorld (list_to_map [("a.csv", bps_fixture); ("b.csv", "TEL")])
                    ["earlier"] [] in
  fst (@entry_point (fixture_backend []) Bps paths w1)
  = fst (@entry_point (fixture_backend []) Bps paths w2) /\
  files (snd (@entry_point (fixture_backend []) Bps paths w1)) = files w1 /\
  fst (@entry_point (fixture_backend []) Bps paths
         (snd (@entry_point (fixture_backend []) Bps paths w1)))
  = fst (@entry_point (fixture_backend []) Bps paths w1).
Proof.
  intros paths w1 w2.
  apply (@entry_point_deterministic (fixture_backend []) Bps paths w1 w2).
  intros path Hpath. vm_compute in Hpath. injection Hpath as <-. reflexivity.
Defined.

(** C8, as the code has it: when the [try] block raises [e], the entry
    point prints one more line, the variant's prefix followed by the
    description of [e], and returns [None].  The prefix of the Alfa
    variant names it; the BPS, Installment and Lizing variants share one
    prefix that names no provider. *)
Theorem except_prints_prefixed_description `{Pandas} v paths w e w1 :
  try_block v paths w = (Raise e, w1) ->
  entry_point v paths w
  = (Return None,
     mkWorld (files w1) (stdout w1 ++ [error_prefix v +:+ exn_str e]) (heap w1)) /\
  (v = Alfa -> contains (variant_name v) (error_prefix v) = true) /\
  (v <> Alfa -> error_prefix v = "An error occurred during data processing: ").
Proof.
  intros Htry. split; [|split].
  - rewrite entry_point_unfold. unfold try_except.
    rewrite Htry, except_block_run. reflexivity.
  - intros ->. reflexivity.
  - intros Hv. destruct v; [congruence| | |]; reflexivity.
Qed.

Lemma except_prints_prefixed_description_witness :
  let paths : gmap string string := list_to_map [("alfa", "missing.xlsx")] in
  let e := Exn FileNotFoundError "[Errno 2] No such file or directory: 'missing.xlsx'" in
  let w1 := mkWorld ∅ ["Loading Alfa data..."] [] in
  @try_block (fixture_backend []) Alfa paths (world_of []) = (Raise e, w1) /\
  @entry_point (fixture_backend []) Alfa paths (world_of [])
  = (Return None,
     mkWorld ∅ ["Loading Alfa data...";
                "Error while loading or cleaning Alfa data: [Errno 2] No such file or directory: 'missing.xlsx'"] []).
Proof.
  intros paths e w1. split; [reflexivity|].
  apply (@except_prints_prefixed_description (fixture_backend []) Alfa paths
           (world_of []) e w1).
  reflexivity.
Defined.

(** C8, as the specification states it, fails: the line that the BPS entry point
    prints for a file that does not exist does not name BPS, and the
    Lizing entry point prints the very same line. *)
Lemma diagnostic_names_no_provider_counterexample :
  let line := "An error occurred during data processing: [Errno 2] No such file or directory: 'missing.csv'" in
  last (stdout (snd (@entry_point (fixture_backend []) Bps
                       (list_to_map [("bps", "missing.csv")]) (world_of [])))) = Some line /\
  last (stdout (snd (@entry_point (fixture_backend []) Lizing
                       (list_to_map [("lizing", "missing.csv")]) (world_of [])))) = Some line /\
  contains (variant_name Bps) line = false /\
  contains (variant_name Lizing) line = false.
Proof. vm_compute. repeat split. Qed.

(** ** Cleaning keeps the rows *)

(** C3: when the clean step of a variant accepts a raw record set, the
    result has the index of the raw set, hence as many rows in the same
    order, and each of its columns is a column of the raw set, cell for
    cell, under its renamed label, which is a canonical one; so the cell
    of any result column at row [i] is a cell of row [i] of the raw set. *)
Theorem clean_preserves_rows v df out :
  clean v df = Return out ->
  index out = index df /\
  nrows out = nrows df /\
  (forall c, c ∈ columns out ->
     c.1 ∈ canonical v /\
     exists c0, c0 ∈ columns df /\ c.2 = c0.2 /\ c.1 = rename_label (mapper_of v) c0.1) /\
  (forall i c, c ∈ columns out -> nth i c.2 VNA ∈ row i df).
Proof.
  intros Hclean. apply clean_Return in Hclean as [_ ->]. simpl.
  assert (forall c, c ∈ take_columns (canonical v)
                         ((fun c0 : column => (rename_label (mapper_of v) c0.1, c0.2))
                            <$> columns df) ->
            c.1 ∈ canonical v /\
            exists c0, c0 ∈ columns df /\ c.2 = c0.2
                       /\ c.1 = rename_label (mapper_of v) c0.1) as Hcols.
  { intros c Hc. apply elem_of_take_columns in Hc as [Hc Hcanon].
    split; [assumption|].
    apply list_elem_of_fmap in Hc as (c0 & -> & Hc0). exists c0. auto. }
  repeat split; try (apply Hcols; assumption).
  intros i c Hc. destruct (Hcols c Hc) as (_ & c0 & Hc0 & -> & _).
  unfold row. apply list_elem_of_In, in_map_iff. exists c0.
  split; [reflexivity|]. apply list_elem_of_In. assumption.
Qed.

Lemma clean_preserves_rows_witness :
  let raw := mkDF [0; 1] [("Phone", [VInt 1; VInt 1]); ("Note", [VStr "x"; VStr "x"]);
                          ("Date", [VStr "d"; VStr "d"]);
                          ("Identification number", [VStr "i"; VStr "i"])] in
  let out := mkDF [0; 1] [("date", [VStr "d"; VStr "d"]); ("phone_number", [VInt 1; VInt 1]);
                          ("identify", [VStr "i"; VStr "i"])] in
  clean Alfa raw = Return out /\ index out = index raw /\ nrows out = nrows raw.
Proof.
  intros raw out. split; [reflexivity|].
  destruct (clean_preserves_rows Alfa raw out eq_refl) as (Hidx & Hrows & _).
  split; assumption.
Defined.

(** C9: the clean step of every variant is idempotent: cleaning a
    cleaned record set returns it unchanged. *)
Theorem clean_idempotent v df out :
  clean v df = Return out -> clean v out = Return out.
Proof.
  intros Hclean. apply clean_Return in Hclean as [Hall ->].
  set (cols := columns (rename (mapper_of v) df)).
  assert (forall l, l ∈ canonical v -> l ∈ cols.*1) as Hall'.
  { intros l Hl. unfold cols. fold (labels (rename (mapper_of v) df)).
    rewrite labels_rename. auto. }
  rewrite clean_unfold, rename_fixes_canonical
    by (intros c Hc; apply elem_of_take_columns in Hc as [_ Hc]; exact Hc).
  apply getitem_columns_Return. simpl. split.
  - intros l Hl. unfold labels. simpl. apply dec_stable. intros Hnot.
    apply labelled_nil_iff in Hnot.
    rewrite labelled_take in Hnot by (try apply canonical_NoDup; assumption).
    apply labelled_nil_iff in Hnot. auto.
  - rewrite take_columns_idem by apply canonical_NoDup. reflexivity.
Qed.

Lemma clean_idempotent_witness :
  let raw := mkDF [0] [("Мобильный телефон", [VInt 1]); ("phone_number", [VInt 2]);
                       ("Дата заключения", [VStr "d"])] in
  let out := mkDF [0] [("date", [VStr "d"]); ("phone_number", [VInt 1]);
                       ("phone_number", [VInt 2])] in
  clean Lizing raw = Return out /\ clean Lizing out = Return out.
Proof.
  intros raw out. split; [reflexivity|].
  apply (clean_idempotent Lizing raw out). reflexivity.
Defined.

(** ** Reading the delimited file *)

Lemma first_occurrences_snd seen i header :
  NoDup (first_occurrences seen i header).*2 /\
  forall l, l ∈ (first_occurrences seen i header).*2 <-> l ∈ header /\ l ∉ seen.
Proof.
  revert seen i. induction header as [|h header IH]; intros seen i; simpl.
  - split; [constructor|]. intros l. split; [inversion 1|intros [Hl _]; inversion Hl].
  - destruct (decide (h ∈ seen)) as [Hin|Hnot].
    + destruct (IH seen (S i)) as [Hnd Hiff]. split; [assumption|].
      intros l. rewrite Hiff, elem_of_cons. split; [tauto|].
      intros [[->|Hl] Hs]; [contradiction|auto].
    + destruct (IH (h :: seen) (S i)) as [Hnd Hiff]. rewrite fmap_cons. simpl. split.
      * apply NoDup_cons. split; [|assumption].
        rewrite Hiff. intros [_ Hh]. apply Hh. left.
      * intros l. rewrite !elem_of_cons, Hiff, elem_of_cons. split.
        -- intros [->|[Hl Hs]]; [auto|]. split; [auto|]. intros Hls. apply Hs. auto.
        -- intros [[->|Hl] Hs]; [auto|].
           destruct (decide (l = h)) as [->|Hne]; [auto|].
           right. split; [assumption|]. intros [->|Hls]; [congruence|contradiction].
Qed.

Lemma filter_snd_NoDup (P : nat * string -> Prop) `{forall x, Decision (P x)}
    (l : list (nat * string)) :
  NoDup l.*2 -> NoDup (filter P l).*2.
Proof.
  induction l as [|x l IH]; intros Hnd; [constructor|].
  rewrite fmap_cons in Hnd. apply NoDup_cons in Hnd as [Hx Hnd].
  rewrite filter_cons. destruct (decide (P x)); [|auto].
  rewrite fmap_cons. apply NoDup_cons. split; [|auto].
  intros Hin. apply Hx. apply list_elem_of_fmap in Hin as (y & -> & Hy).
  apply list_elem_of_filter in Hy as [_ Hy]. by apply list_elem_of_fmap_2.
Qed.

Lemma read_column_label `{Pandas} sep dtypes parse_dates body il c :
  read_column sep dtypes parse_dates body il = Some c -> c.1 = il.2.
Proof.
  unfold read_column. destruct (mapM _ _); [|discriminate]. by intros [= <-].
Qed.

Lemma read_columns_labels `{Pandas} sep dtypes parse_dates body picked cols :
  mapM (read_column sep dtypes parse_dates body) picked = Some cols ->
  cols.*1 = picked.*2.
Proof.
  intros Hcols. apply mapM_Some in Hcols.
  induction Hcols as [|il c picked cols Hc _ IH]; [reflexivity|].
  rewrite !fmap_cons. f_equal; [|assumption]. by apply read_column_label in Hc.
Qed.

(** The plain reading of a file, unfolded. *)
Lemma parse_csv_plain_Return `{Pandas} content sep usecols dtypes parse_dates df :
  parse_csv_plain content sep usecols dtypes parse_dates = Some (Return df) ->
  exists header_line body cols,
    plain_text content = true /\
    csv_lines content = header_line :: body /\
    well_shaped sep header_line body /\
    (forall u, u ∈ usecols -> u ∈ split_on sep header_line) /\
    mapM (read_column sep dtypes parse_dates body)
         (filter (fun il : nat * string => il.2 ∈ usecols)
                 (first_occurrences [] 0 (split_on sep header_line))) = Some cols /\
    df = mkDF (seqZ 0 (Z.of_nat (length body))) cols.
Proof.
  unfold parse_csv_plain.
  destruct (plain_text content); [|discriminate].
  destruct (csv_lines content) as [|header_line body]; [discriminate|].
  destruct (decide (well_shaped sep header_line body)) as [Hshape|]; [|discriminate].
  destruct (filter (fun u => u ∉ split_on sep header_line) usecols) as [|m ms] eqn:Hmiss;
    [|discriminate].
  destruct (mapM _ _) as [cols|] eqn:Hcols; [|discriminate].
  intros [= <-]. exists header_line, body, cols.
  split; [reflexivity|]. split; [reflexivity|]. split; [assumption|].
  split; [|split; [assumption|reflexivity]].
  intros u Hu. apply dec_stable. intros Hnot.
  assert (u ∈ filter (fun u => u ∉ split_on sep header_line) usecols) as Hf
    by (apply list_elem_of_filter; auto).
  rewrite Hmiss in Hf. inversion Hf.
Qed.

Lemma parse_csv_plain_frame `{Pandas} content sep usecols dtypes parse_dates
    header_line body cols :
  plain_text content = true ->
  csv_lines content = header_line :: body ->
  well_shaped sep header_line body ->
  (forall u, u ∈ usecols -> u ∈ split_on sep header_line) ->
  mapM (read_column sep dtypes parse_dates body)
       (filter (fun il : nat * string => il.2 ∈ usecols)
               (first_occurrences [] 0 (split_on sep header_line))) = Some cols ->
  parse_csv content sep usecols dtypes parse_dates
  = Return (mkDF (seqZ 0 (Z.of_nat (length body))) cols).
Proof.
  intros Hplain Hlines Hshape Hall Hcols. unfold parse_csv, parse_csv_plain.
  rewrite Hplain, Hlines. rewrite decide_True by assumption.
  assert (filter (fun u => u ∉ split_on sep header_line) usecols = []) as ->.
  { destruct (filter _ usecols) as [|m ms] eqn:Hf; [reflexivity|]. exfalso.
    assert (m ∈ filter (fun u => u ∉ split_on sep header_line) usecols) as Hm
      by (rewrite Hf; left).
    apply list_elem_of_filter in Hm as [Hnot Hm]. auto. }
  cbn zeta. rewrite Hcols. reflexivity.
Qed.

(** What a successful read selects: each of [usecols] once. *)
Lemma parse_csv_labels `{Pandas} content sep usecols dtypes parse_dates df :
  parse_csv content sep usecols dtypes parse_dates = Return df ->
  NoDup (labels df) /\ forall l, l ∈ labels df <-> l ∈ usecols.
Proof.
  unfold parse_csv.
  destruct (parse_csv_plain content sep usecols dtypes parse_dates) as [result|] eqn:Hplain;
    [|apply read_csv_other_usecols].
  intros ->.
  apply parse_csv_plain_Return in Hplain
    as (header_line & body & cols & _ & _ & _ & Hall & Hcols & ->).
  unfold labels; cbn [columns].
  rewrite (read_columns_labels _ _ _ _ _ _ Hcols).
  destruct (first_occurrences_snd [] 0 (split_on sep header_line)) as [Hnd Hiff].
  split; [by apply filter_snd_NoDup|].
  intros l. rewrite list_elem_of_fmap. split.
  - intros (il & -> & Hil). apply list_elem_of_filter in Hil as [Hu _]. exact Hu.
  - intros Hl.
    assert (l ∈ (first_occurrences [] 0 (split_on sep header_line)).*2) as Hfo.
    { apply Hiff. split; [auto|]. inversion 1. }
    apply list_elem_of_fmap in Hfo as (il & -> & Hil). exists il.
    split; [reflexivity|]. apply list_elem_of_filter. auto.
Qed.

Lemma int64_literal_range s z :
  int64_literal s = Some z -> int64_min <= z <= int64_max.
Proof.
  unfold int64_literal. destruct (parse_int s) as [z'|]; [|discriminate].
  destruct ((int64_min <=? z') && (z' <=? int64_max)) eqn:Hrange; [|discriminate].
  intros [= <-]. apply andb_true_iff in Hrange as [H1 H2]. lia.
Qed.

(** ** Renaming *)

Lemma rename_label_other v l :
  l ∉ source_labels v -> rename_label (mapper_of v) l = l.
Proof.
  intros Hl. unfold rename_label.
  assert (mapper_of v !! l = None) as ->; [|reflexivity].
  destruct v; apply not_elem_of_list_to_map_1; exact Hl.
Qed.

Lemma rename_label_inj_on_sources v l l' :
  l ∈ source_labels v -> l' ∈ source_labels v ->
  rename_label (mapper_of v) l = rename_label (mapper_of v) l' -> l = l'.
Proof.
  intros Hl Hl' Heq.
  destruct v; simpl in Hl, Hl';
    repeat (apply elem_of_cons in Hl as [->|Hl]); try (by inversion Hl);
    repeat (apply elem_of_cons in Hl' as [->|Hl']); try (by inversion Hl');
    first [reflexivity | vm_compute in Heq; discriminate].
Qed.

(** A label is renamed to the target of a source label only if it is that
    source label or already the target. *)
Lemma renamed_to_target v l src :
  src ∈ source_labels v ->
  rename_label (mapper_of v) l = rename_label (mapper_of v) src ->
  l = src \/ l = rename_label (mapper_of v) src.
Proof.
  intros Hsrc Heq. destruct (decide (l ∈ source_labels v)) as [Hl|Hl].
  - left. by apply (rename_label_inj_on_sources v).
  - right. rewrite <- Heq. symmetry. by apply rename_label_other.
Qed.

Lemma target_canonical v src :
  src ∈ source_labels v -> rename_label (mapper_of v) src ∈ canonical v.
Proof.
  intros Hsrc. destruct v; simpl in Hsrc;
    repeat (apply elem_of_cons in Hsrc as [->|Hsrc]); try (by inversion Hsrc);
    apply (bool_decide_unpack _); vm_compute; exact I.
Qed.

(** ** Missing columns *)

Lemma clean_Raise v df e :
  clean v df = Raise e ->
  exn_cls e = KeyError /\
  exists l, l ∈ canonical v /\ l ∉ rename_label (mapper_of v) <$> labels df.
Proof.
  rewrite clean_unfold. intros Hraise.
  apply getitem_columns_Raise in Hraise. by rewrite labels_rename in Hraise.
Qed.

Lemma clean_missing v df src :
  src ∈ source_labels v -> src ∉ labels df ->
  rename_label (mapper_of v) src ∉ labels df ->
  exists e, clean v df = Raise e /\ exn_cls e = KeyError.
Proof.
  intros Hsrc Hno_src Hno_target.
  destruct (clean v df) as [out|e] eqn:Hclean.
  - exfalso. apply clean_Return in Hclean as [Hall _].
    specialize (Hall _ (target_canonical v src Hsrc)).
    apply list_elem_of_fmap in Hall as (l & Heq & Hl).
    symmetry in Heq. apply renamed_to_target in Heq as [->| ->]; auto.
  - exists e. split; [reflexivity|]. by apply clean_Raise in Hclean as [? _].
Qed.

(** C5, as the code has it: when the raw record set of the Alfa variant
    has neither a required source column nor a column that already bears
    the canonical name it is renamed to, the projection raises [KeyError]
    and the entry point returns [None]. *)
Theorem alfa_missing_column `{Pandas} raw src :
  src ∈ ["Phone"; "Date"; "Identification number"] ->
  src ∉ labels raw ->
  rename_label AlfaLoader.mapper src ∉ labels raw ->
  (exists e, AlfaLoader._clean_data raw = Raise e /\ exn_cls e = KeyError) /\
  (forall paths w path,
     paths !! "alfa" = Some path ->
     read_excel_in (files w) path "Sheet1" 0 = Return raw ->
     fst (AlfaLoader.load_alfa_data paths w) = Return None).
Proof.
  intros Hsrc Hno_src Hno_target.
  destruct (clean_missing Alfa raw src Hsrc Hno_src Hno_target) as (e & Hclean & Hcls).
  split; [eauto|].
  intros paths w path Hkey Hread.
  change (fst (entry_point Alfa paths w) = Return None).
  rewrite entry_point_result. unfold attempt, dict_getitem. simpl config_key.
  rewrite Hkey. simpl. rewrite Hread. simpl.
  change (AlfaLoader._clean_data raw) with (clean Alfa raw). rewrite Hclean. reflexivity.
Qed.

Lemma alfa_missing_column_witness :
  let raw := mkDF [0] [("Date", [VStr "2024-01-01"]);
                       ("Identification number", [VStr "AB1"])] in
  ("Phone" ∈ ["Phone"; "Date"; "Identification number"]) /\
  ("Phone" ∉ labels raw) /\
  (rename_label AlfaLoader.mapper "Phone" ∉ labels raw) /\
  exists e, AlfaLoader._clean_data raw = Raise e /\ exn_cls e = KeyError.
Proof.
  intros raw.
  assert ("Phone" ∈ ["Phone"; "Date"; "Identification number"]) as H1
    by (apply (bool_decide_unpack _); vm_compute; exact I).
  assert ("Phone" ∉ labels raw) as H2
    by (apply (bool_decide_unpack _); vm_compute; exact I).
  assert (rename_label AlfaLoader.mapper "Phone" ∉ labels raw) as H3
    by (apply (bool_decide_unpack _); vm_compute; exact I).
  split; [exact H1|]. split; [exact H2|]. split; [exact H3|].
  apply (@alfa_missing_column (fixture_backend []) raw "Phone" H1 H2 H3).
Defined.

(** C5, as the specification states it, fails: a raw record set without the column
    Phone, whose phone column is already named phone_number, is cleaned
    without error, and the entry point returns the result. *)
Lemma alfa_missing_source_counterexample :
  let raw := mkDF [0] [("phone_number", [VInt 5551234]); ("Date", [VStr "2024-01-01"]);
                       ("Identification number", [VStr "AB1"])] in
  let out := mkDF [0] [("date", [VStr "2024-01-01"]); ("phone_number", [VInt 5551234]);
                       ("identify", [VStr "AB1"])] in
  ("Phone" ∉ labels raw) /\
  AlfaLoader._clean_data raw = Return out /\
  fst (@AlfaLoader.load_alfa_data (fixture_backend [("workbook", "Sheet1", raw)])
         (list_to_map [("alfa", "alfa.xlsx")])
         (world_of [("alfa.xlsx", "workbook")])) = Return (Some out).
Proof.
  split; [apply (bool_decide_unpack _); vm_compute; exact I|].
  split; vm_compute; reflexivity.
Qed.

(** ** The columns of a result *)

Lemma attempt_Return `{Pandas} v paths fs out :
  attempt v paths fs = Return out <->
  exists path raw, paths !! config_key v = Some path /\
                   read_in v fs path = Return raw /\ clean v raw = Return out.
Proof.
  unfold attempt, dict_getitem. split.
  - destruct (paths !! config_key v) as [path|]; simpl; [|discriminate].
    destruct (read_in v fs path) as [raw|] eqn:Hread; simpl; [|discriminate].
    eauto.
  - intros (path & raw & -> & Hread & Hclean). simpl. rewrite Hread. exact Hclean.
Qed.

(** The labels of a cleaned record set are the canonical ones. *)
Lemma clean_label_set v raw out l :
  clean v raw = Return out -> l ∈ labels out <-> l ∈ canonical v.
Proof.
  intros Hclean. apply clean_Return in Hclean as [Hall ->]. unfold labels. simpl. split.
  - intros Hl. apply list_elem_of_fmap in Hl as (c & -> & Hc).
    by apply elem_of_take_columns in Hc as [_ Hc].
  - intros Hl. specialize (Hall l Hl). rewrite <- labels_rename in Hall.
    apply list_elem_of_fmap in Hall as (c & -> & Hc).
    apply list_elem_of_fmap_2, elem_of_take_columns. auto.
Qed.

(** When renaming leaves no label repeated, they come once each and in
    the documented order. *)
Lemma clean_labels_exact v raw out :
  clean v raw = Return out ->
  NoDup (rename_label (mapper_of v) <$> labels raw) ->
  labels out = canonical v.
Proof.
  intros Hclean Hnd. apply clean_Return in Hclean as [Hall ->].
  unfold labels at 1. simpl. rewrite <- labels_rename in Hall, Hnd.
  by apply labels_take_columns.
Qed.

Lemma renamed_NoDup_sources v (ls : list string) :
  NoDup ls -> (forall l, l ∈ ls -> l ∈ source_labels v) ->
  NoDup (rename_label (mapper_of v) <$> ls).
Proof.
  intros Hnd Hsub. apply NoDup_fmap_2_strong; [|assumption].
  intros l l' Hl Hl'. apply rename_label_inj_on_sources; auto.
Qed.

Lemma read_in_sources `{Pandas} v fs path raw :
  v = Bps \/ v = Installment ->
  read_in v fs path = Return raw ->
  NoDup (labels raw) /\ forall l, l ∈ labels raw -> l ∈ source_labels v.
Proof.
  intros [-> | ->]; simpl.
  - unfold read_csv_in. destruct (open_file fs path) as [content|]; simpl; [|discriminate].
    intros Hparse. apply parse_csv_labels in Hparse as [Hnd Hiff].
    split; [assumption|]. intros l Hl. by apply Hiff.
  - unfold read_excel_in. destruct (open_file fs path) as [content|]; simpl; [|discriminate].
    destruct (parse_sheet content _ 0) as [sheet|] eqn:Hsheet; simpl; [|discriminate].
    apply parse_sheet_mangled in Hsheet. intros Hget.
    apply getitem_columns_Return in Hget as [Hall ->].
    assert (labels (mkDF (index sheet)
                         (take_columns [InstallmentLoader.phone_label;
                                        InstallmentLoader.date_label] (columns sheet)))
            = [InstallmentLoader.phone_label; InstallmentLoader.date_label]) as ->
      by (unfold labels; cbn [columns]; by apply labels_take_columns).
    split; [|auto]. apply (bool_decide_unpack _); vm_compute; exact I.
Qed.

(** X14: the labels of a result are the canonical ones of the variant
    and no others, so a column that is not renamed to a canonical name is
    absent; they come once each and in the documented order whenever
    renaming the raw record set leaves no label repeated, which is always
    so for the BPS and the Installment variants. *)
Theorem entry_point_columns `{Pandas} v paths w out :
  fst (entry_point v paths w) = Return (Some out) ->
  (forall l, l ∈ labels out <-> l ∈ canonical v) /\
  (exists path raw,
     paths !! config_key v = Some path /\
     read_in v (files w) path = Return raw /\
     clean v raw = Return out /\
     (forall c, c ∈ columns raw -> rename_label (mapper_of v) c.1 ∉ canonical v ->
                (c.1 ∉ labels out) /\ (rename_label (mapper_of v) c.1 ∉ labels out)) /\
     (NoDup (rename_label (mapper_of v) <$> labels raw) -> labels out = canonical v)) /\
  (v = Bps \/ v = Installment -> labels out = canonical v).
Proof.
  rewrite entry_point_result.
  destruct (attempt v paths (files w)) as [out'|] eqn:Hattempt; [|discriminate].
  intros [= ->]. apply attempt_Return in Hattempt as (path & raw & Hkey & Hread & Hclean).
  split; [|split].
  - intros l. by apply (clean_label_set v raw).
  - exists path, raw. split; [assumption|]. split; [assumption|].
    split; [assumption|]. split.
    + intros c Hc Hnot. rewrite !(clean_label_set v raw out _ Hclean).
      split; [|assumption]. intros Hcanon.
      apply Hnot. by rewrite (canonical_not_renamed v _ Hcanon).
    + by apply clean_labels_exact.
  - intros Hv. apply (clean_labels_exact v raw); [assumption|].
    destruct (read_in_sources v _ _ _ Hv Hread) as [Hnd Hsub].
    by apply renamed_NoDup_sources.
Qed.

Lemma entry_point_columns_witness :
  let raw := mkDF [0] [("Phone", [VInt 5551234]); ("Comment", [VStr "call back"]);
                       ("Date", [VStr "2024-01-01"]);
                       ("Identification number", [VStr "AB1"])] in
  let out := mkDF [0] [("date", [VStr "2024-01-01"]); ("phone_number", [VInt 5551234]);
                       ("identify", [VStr "AB1"])] in
  let backend := fixture_backend [("workbook", "Sheet1", raw)] in
  let paths : gmap string string := list_to_map [("alfa", "alfa.xlsx")] in
  let w := world_of [("alfa.xlsx", "workbook")] in
  fst (@entry_point backend Alfa paths w) = Return (Some out) /\
  forall l, l ∈ labels out <-> l ∈ canonical Alfa.
Proof.
  intros raw out backend paths w. split; [reflexivity|].
  apply (@entry_point_columns backend Alfa paths w out). reflexivity.
Defined.

(** C2: a result is to have the columns date, phone_number and identify
    and no other, as the docstring of the Alfa clean step says.  The Alfa
    loader breaks this on a workbook that has, next to Phone, a column
    already named phone_number: the load succeeds with four columns, the
    extra input column among them.  The BPS and the Installment loaders,
    which restrict what they read to their source columns, do not. *)
Theorem alfa_repeated_label_breaks_schema :
  let raw := mkDF [0] [("Phone", [VInt 5551234]); ("phone_number", [VInt 7]);
                       ("Date", [VStr "2024-01-01"]);
                       ("Identification number", [VStr "AB1"])] in
  let out := mkDF [0] [("date", [VStr "2024-01-01"]); ("phone_number", [VInt 5551234]);
                       ("phone_number", [VInt 7]); ("identify", [VStr "AB1"])] in
  NoDup (labels raw) /\
  fst (@entry_point (fixture_backend [("workbook", "Sheet1", raw)]) Alfa
         (list_to_map [("alfa", "alfa.xlsx")])
         (world_of [("alfa.xlsx", "workbook")])) = Return (Some out) /\
  labels out <> canonical Alfa /\
  ("phone_number", [VInt 7]) ∈ columns raw /\
  ("phone_number", [VInt 7]) ∈ columns out.
Proof.
  split; [apply (bool_decide_unpack _); vm_compute; exact I|].
  split; [vm_compute; reflexivity|].
  split; [vm_compute; discriminate|].
  split; apply (bool_decide_unpack _); vm_compute; exact I.
Qed.

(** ** The BPS read step *)

Lemma first_occurrences_elem header seen n i l :
  header !! i = Some l -> l ∉ take i header -> l ∉ seen ->
  ((n + i)%nat, l) ∈ first_occurrences seen n header.
Proof.
  revert seen n i. induction header as [|h header IH]; intros seen n i Hi Hfirst Hseen.
  - inversion Hi.
  - destruct i as [|i]; simpl in *.
    + injection Hi as ->. rewrite decide_False by assumption.
      rewrite Nat.add_0_r. left.
    + assert (l <> h) as Hne by (intros ->; apply Hfirst; left).
      assert (l ∉ take i header) as Hfirst' by (intros Hin; apply Hfirst; by right).
      replace (n + S i)%nat with (S n + i)%nat by lia.
      destruct (decide (h ∈ seen)).
      * by apply IH.
      * right. apply IH; [assumption|assumption|].
        intros [->|Hin]%elem_of_cons; [congruence|contradiction].
Qed.

Lemma first_occurrences_lookup header seen n k l :
  (k, l) ∈ first_occurrences seen n header ->
  exists k', k = (n + k')%nat /\ header !! k' = Some l.
Proof.
  revert seen n. induction header as [|h header IH]; intros seen n Hin; simpl in Hin.
  - inversion Hin.
  - destruct (decide (h ∈ seen)).
    + destruct (IH _ _ Hin) as (k' & -> & Hk'). exists (S k'). split; [lia|exact Hk'].
    + apply elem_of_cons in Hin as [[= -> ->]|Hin].
      * exists 0%nat. split; [lia|reflexivity].
      * destruct (IH _ _ Hin) as (k' & -> & Hk'). exists (S k'). split; [lia|exact Hk'].
Qed.

Lemma NoDup_first_at (header : list string) i l :
  NoDup header -> header !! i = Some l -> l ∉ take i header.
Proof.
  intros Hnd Hi Hin. apply list_elem_of_lookup in Hin as [k Hk].
  pose proof (lookup_lt_Some _ _ _ Hk) as Hlt. rewrite length_take in Hlt.
  rewrite lookup_take_lt in Hk by lia.
  pose proof (NoDup_lookup _ _ _ _ Hnd Hk Hi). lia.
Qed.

(** In a header of distinct labels, the column picked for a label is the
    one at the label's position. *)
Lemma picked_position (header usecols : list string) i l :
  NoDup header -> header !! i = Some l -> l ∈ usecols ->
  let picked := filter (fun il : nat * string => il.2 ∈ usecols)
                       (first_occurrences [] 0 header) in
  (i, l) ∈ picked /\ forall k, (k, l) ∈ picked -> k = i.
Proof.
  intros Hnd Hi Hl picked. split.
  - apply list_elem_of_filter. split; [exact Hl|].
    apply (first_occurrences_elem header [] 0%nat i l);
      [assumption|by apply NoDup_first_at|apply not_elem_of_nil].
  - intros k Hk. apply list_elem_of_filter in Hk as [_ Hk].
    apply first_occurrences_lookup in Hk as (k' & -> & Hk').
    apply (NoDup_lookup _ _ _ _ Hnd Hk' Hi).
Qed.

Lemma int_cells (zs : list Z) (fields : list string) :
  mapM int64_literal fields = Some zs ->
  mapM (convert_cell (Some Int64)) fields = Some (VInt <$> zs).
Proof.
  intros Hzs. apply mapM_Some in Hzs. apply mapM_Some.
  induction Hzs as [|s z fields zs Hs _ IH]; [constructor|].
  rewrite fmap_cons. constructor; [|exact IH]. simpl. by rewrite Hs.
Qed.

Lemma text_cells (fields : list string) :
  mapM (convert_cell (Some StringDtype)) fields = Some (text_cell <$> fields).
Proof.
  apply mapM_Some. induction fields as [|s fields IH]; [constructor|].
  rewrite fmap_cons. constructor; [reflexivity|exact IH].
Qed.

(** What the BPS read step returns for a plain file, from the fields of
    the file. *)
Lemma bps_read_plain `{Pandas} fs path content header_line body i j (zs : list Z) :
  fs !! path = Some content ->
  plain_text content = true ->
  csv_lines content = header_line :: body ->
  well_shaped ";" header_line body ->
  split_on ";" header_line !! i = Some "TEL" ->
  split_on ";" header_line !! j = Some "APLCTN_DT" ->
  mapM int64_literal (field ";" i <$> body) = Some zs ->
  exists df,
    read_in Bps fs path = Return df /\
    index df = seqZ 0 (Z.of_nat (length body)) /\
    ("TEL", VInt <$> zs) ∈ columns df /\
    ("APLCTN_DT", bps_date_cells j body) ∈ columns df.
Proof.
  intros Hfile Hplain Hlines Hshape Hi Hj Hzs.
  pose proof Hshape as (Hnd & _ & _).
  set (header := split_on ";" header_line) in *.
  set (picked := filter (fun il : nat * string => il.2 ∈ BpsLoader.columns_to_use)
                        (first_occurrences [] 0 header)).
  set (read := read_column ";" BpsLoader.data_types BpsLoader.parse_dates body).
  assert ("TEL" ∈ BpsLoader.columns_to_use) as Htel by left.
  assert ("APLCTN_DT" ∈ BpsLoader.columns_to_use) as Hdate by (right; left).
  destruct (picked_position header _ i "TEL" Hnd Hi Htel) as [Hpi Hpi'].
  destruct (picked_position header _ j "APLCTN_DT" Hnd Hj Hdate) as [Hpj Hpj'].
  fold picked in Hpi, Hpi', Hpj, Hpj'.
  assert (read (i, "TEL") = Some ("TEL", VInt <$> zs)) as Hri.
  { unfold read, read_column. cbn [fst snd].
    change (BpsLoader.data_types !! "TEL") with (Some Int64).
    rewrite (int_cells _ _ Hzs). reflexivity. }
  assert (read (j, "APLCTN_DT") = Some ("APLCTN_DT", bps_date_cells j body)) as Hrj.
  { unfold read, read_column. cbn [fst snd].
    change (BpsLoader.data_types !! "APLCTN_DT") with (Some StringDtype).
    rewrite text_cells. reflexivity. }
  assert (is_Some (mapM read picked)) as [cols Hcols].
  { apply mapM_is_Some, Forall_forall. intros [k l] Hkl.
    assert (l ∈ BpsLoader.columns_to_use) as Hl
      by (by apply list_elem_of_filter in Hkl as [? _]).
    unfold BpsLoader.columns_to_use in Hl.
    apply elem_of_cons in Hl as [->|Hl].
    - rewrite (Hpi' k Hkl). simpl. rewrite Hri. eauto.
    - apply list_elem_of_singleton in Hl as ->.
      rewrite (Hpj' k Hkl). simpl. rewrite Hrj. eauto. }
  assert (forall il c, il ∈ picked -> read il = Some c -> c ∈ cols) as Hin.
  { intros il c Hil Hc. apply mapM_Some in Hcols.
    apply list_elem_of_lookup in Hil as [n Hn].
    destruct (Forall2_lookup_l _ _ _ _ _ Hcols Hn) as (c' & Hc' & Hread).
    rewrite Hc in Hread. injection Hread as <-.
    apply list_elem_of_lookup. eauto. }
  exists (mkDF (seqZ 0 (Z.of_nat (length body))) cols).
  split; [|split; [reflexivity|split; [by apply (Hin (i, "TEL"))
                                      |by apply (Hin (j, "APLCTN_DT"))]]].
  cbn [read_in]. unfold read_csv_in, open_file. rewrite Hfile. cbn [obind].
  apply (parse_csv_plain_frame _ _ _ _ _ header_line body cols);
    try assumption.
  intros u Hu. unfold BpsLoader.columns_to_use in Hu.
  apply elem_of_cons in Hu as [->|Hu]; [by apply list_elem_of_lookup_2 in Hi|].
  apply list_elem_of_singleton in Hu as ->. by apply list_elem_of_lookup_2 in Hj.
Qed.

Lemma bps_fixture_parse `{Pandas} :
  parse_csv bps_fixture ";" BpsLoader.columns_to_use BpsLoader.data_types
            BpsLoader.parse_dates
  = Return (mkDF [0] [("TEL", [VInt 5551234]);
                      ("APLCTN_DT", default [VStr "2024-01-01"]
                                            (to_datetime [VStr "2024-01-01"]))]).
Proof. vm_compute. reflexivity. Qed.

(** C4: for any file, a frame that the BPS read step returns has the two
    columns TEL and APLCTN_DT, once each, and no column PD.  For a plain
    semicolon-delimited file whose header has TEL and APLCTN_DT, with or
    without PD or other columns, and whose TEL fields are decimal
    integers of 64 bits, the read step succeeds and returns one row per
    record: the TEL column holds the integers that the TEL fields spell,
    the APLCTN_DT column the text of the APLCTN_DT fields read as dates
    where the column can be.  The file of these two columns alone with
    the record 5551234;2024-01-01 loads: the entry point returns the one
    row with [date] 2024-01-01 and [phone_number] the integer 5551234. *)
Theorem bps_read_two_typed_columns `{Pandas} :
  (forall path w df w',
     BpsLoader._read_data path w = (Return df, w') ->
     w' = w /\
     NoDup (labels df) /\
     (forall l, l ∈ labels df <-> l = "TEL" \/ l = "APLCTN_DT") /\
     ("PD" ∉ labels df)) /\
  (forall path w content header_line body i j (zs : list Z),
     files w !! path = Some content ->
     plain_text content = true ->
     csv_lines content = header_line :: body ->
     well_shaped ";" header_line body ->
     split_on ";" header_line !! i = Some "TEL" ->
     split_on ";" header_line !! j = Some "APLCTN_DT" ->
     mapM int64_literal (field ";" i <$> body) = Some zs ->
     exists df,
       BpsLoader._read_data path w = (Return df, w) /\
       index df = seqZ 0 (Z.of_nat (length body)) /\
       ("TEL", VInt <$> zs) ∈ columns df /\
       Forall is_int64 (VInt <$> zs) /\
       length (VInt <$> zs) = length body /\
       ("APLCTN_DT", bps_date_cells j body) ∈ columns df) /\
  (to_datetime [VStr "2024-01-01"] = Some [VDate 2024 1 1] ->
   forall paths w path,
     paths !! "bps" = Some path ->
     files w !! path = Some bps_fixture ->
     fst (BpsLoader.load_bps_data paths w)
     = Return (Some (mkDF [0] [("date", [VDate 2024 1 1]);
                               ("phone_number", [VInt 5551234])]))).
Proof.
  split; [|split].
  - intros path w df w'. unfold BpsLoader._read_data, read_csv, with_files, read_csv_in.
    intros [= Hread <-]. split; [reflexivity|].
    destruct (open_file (files w) path) as [content|]; simpl in Hread; [|discriminate].
    destruct (parse_csv_labels _ _ _ _ _ _ Hread) as [Hnd Hiff].
    assert (forall l, l ∈ labels df <-> l = "TEL" \/ l = "APLCTN_DT") as Hlab.
    { intros l. rewrite Hiff. unfold BpsLoader.columns_to_use.
      rewrite !elem_of_cons, elem_of_nil. tauto. }
    split; [assumption|]. split; [assumption|].
    rewrite Hlab. intros [?|?]; discriminate.
  - intros path w content header_line body i j zs Hfile Hplain Hlines Hshape Hi Hj Hzs.
    destruct (bps_read_plain _ _ _ _ _ _ _ _ Hfile Hplain Hlines Hshape Hi Hj Hzs)
      as (df & Hread & Hidx & Htel & Hdate).
    exists df. split.
    { unfold BpsLoader._read_data, read_csv, with_files.
      cbn [read_in] in Hread. rewrite Hread. reflexivity. }
    split; [assumption|]. split; [assumption|]. split; [|split; [|assumption]].
    + apply mapM_Some in Hzs. apply Forall_fmap, Forall_forall. intros z Hz.
      apply list_elem_of_lookup in Hz as [n Hn].
      destruct (Forall2_lookup_r _ _ _ _ _ Hzs Hn) as (s & _ & Hs).
      simpl. by apply int64_literal_range in Hs.
    + apply length_mapM in Hzs. rewrite !length_fmap in *. by symmetry.
  - intros Hdate paths w path Hkey Hfile.
    change (fst (entry_point Bps paths w) = Return (Some (mkDF [0] [("date", [VDate 2024 1 1]);
                               ("phone_number", [VInt 5551234])]))).
    rewrite entry_point_result. unfold attempt, dict_getitem. simpl config_key.
    rewrite Hkey. simpl. unfold read_csv_in, open_file. rewrite Hfile. simpl.
    rewrite bps_fixture_parse, Hdate. reflexivity.
Qed.

Lemma bps_read_two_typed_columns_witness :
  let paths : gmap string string := list_to_map [("bps", "bps.csv")] in
  let w := world_of [("bps.csv", bps_fixture)] in
  @to_datetime (fixture_backend []) [VStr "2024-01-01"] = Some [VDate 2024 1 1] /\
  paths !! "bps" = Some "bps.csv" /\
  files w !! "bps.csv" = Some bps_fixture /\
  fst (@BpsLoader.load_bps_data (fixture_backend []) paths w)
  = Return (Some (mkDF [0] [("date", [VDate 2024 1 1]);
                            ("phone_number", [VInt 5551234])])).
Proof.
  intros paths w. split; [reflexivity|]. split; [reflexivity|]. split; [reflexivity|].
  apply (proj2 (proj2 (@bps_read_two_typed_columns (fixture_backend []))) eq_refl
           paths w "bps.csv");
    reflexivity.
Defined.

(** With the column PD in the file the result is the same: PD is not read. *)
Example bps_fixture_pd_same_result :
  fst (@BpsLoader.load_bps_data (fixture_backend [])
         (list_to_map [("bps", "bps.csv")]) (world_of [("bps.csv", bps_fixture_pd)]))
  = fst (@BpsLoader.load_bps_data (fixture_backend [])
           (list_to_map [("bps", "bps.csv")]) (world_of [("bps.csv", bps_fixture)])).
Proof. vm_compute. reflexivity. Qed.

(** ** The BPS loader over references *)

Lemma bps_heap_copy_run r w df :
  heap w !! r = Some df ->
  BpsHeap.copy r w
  = (Return (length (heap w)), mkWorld (files w) (stdout w) (heap w ++ [df])).
Proof.
  intros Hr. unfold BpsHeap.copy, BpsHeap.deref, BpsHeap.alloc, bind.
  rewrite Hr. reflexivity.
Qed.

Lemma bps_heap_rename_inplace_run mapper r w df :
  heap w !! r = Some df ->
  BpsHeap.rename_inplace mapper r w
  = (Return tt, mkWorld (files w) (stdout w) (<[r := rename mapper df]> (heap w))).
Proof.
  intros Hr. unfold BpsHeap.rename_inplace, BpsHeap.deref, BpsHeap.store, bind.
  rewrite Hr. reflexivity.
Qed.

Lemma bps_heap_getitem_run key r w df :
  heap w !! r = Some df ->
  BpsHeap.getitem_columns_ref key r w
  = match getitem_columns key df with
    | Return out =>
        (Return (length (heap w)), mkWorld (files w) (stdout w) (heap w ++ [out]))
    | Raise e => (Raise e, w)
    end.
Proof.
  intros Hr. unfold BpsHeap.getitem_columns_ref, BpsHeap.deref, BpsHeap.alloc, bind, lift.
  rewrite Hr. simpl. destruct (getitem_columns key df); reflexivity.
Qed.

(** The clean step over references: the input frame is copied, the copy
    is renamed in place, and the selection is a third frame. *)
Lemma bps_heap_clean_run input_df w df :
  heap w !! input_df = Some df ->
  let renamed := <[length (heap w) := rename BpsLoader.renamed_columns df]>
                   (heap w ++ [df]) in
  BpsHeap._clean_data input_df w
  = match BpsLoader._clean_data df with
    | Return out =>
        (Return (length renamed), mkWorld (files w) (stdout w) (renamed ++ [out]))
    | Raise e => (Raise e, mkWorld (files w) (stdout w) renamed)
    end.
Proof.
  intros Hr renamed. unfold BpsHeap._clean_data, bind at 1.
  rewrite (bps_heap_copy_run _ _ _ Hr). unfold bind at 1.
  rewrite (bps_heap_rename_inplace_run _ _ _ df) by apply list_lookup_middle, eq_refl.
  cbn [files stdout heap]. unfold bind at 1.
  rewrite (bps_heap_getitem_run _ _ _ (rename BpsLoader.renamed_columns df)).
  - cbn [files stdout heap]. fold renamed. unfold BpsLoader._clean_data.
    destruct (getitem_columns _ _); reflexivity.
  - cbn [heap]. apply list_lookup_insert_eq. rewrite length_app. simpl. lia.
Qed.

(** The clean step leaves every frame that existed before it as it was. *)
Lemma bps_heap_clean_frame input_df w df o w' r :
  heap w !! input_df = Some df ->
  BpsHeap._clean_data input_df w = (o, w') ->
  (r < length (heap w))%nat -> heap w' !! r = heap w !! r.
Proof.
  intros Hin Hrun Hr. rewrite (bps_heap_clean_run _ _ _ Hin) in Hrun.
  destruct (BpsLoader._clean_data df); injection Hrun as <- <-; cbn [heap].
  - rewrite lookup_app_l by (rewrite length_insert, length_app; simpl; lia).
    rewrite list_lookup_insert_ne by lia. by apply lookup_app_l.
  - rewrite list_lookup_insert_ne by lia. by apply lookup_app_l.
Qed.

Lemma bps_heap_read_run `{Pandas} path w :
  BpsHeap._read_data path w
  = match read_in Bps (files w) path with
    | Return df =>
        (Return (length (heap w)), mkWorld (files w) (stdout w) (heap w ++ [df]))
    | Raise e => (Raise e, w)
    end.
Proof.
  unfold BpsHeap._read_data, bind, BpsLoader._read_data, read_csv, with_files, read_in.
  destruct (read_csv_in _ _ _ _ _ _); reflexivity.
Qed.

(** The [try] block over references runs as key lookup, read and clean
    do: it has its cleaned frame exactly when they give one, and the
    frame holds what they give. *)
Lemma bps_heap_cleaned_refines `{Pandas} paths w :
  match attempt Bps paths (files w), BpsHeap.load_bps_cleaned paths w with
  | Return out, (Return cleaned_df, w1) =>
      heap w1 !! cleaned_df = Some out /\ (length (heap w) < length (heap w1))%nat
  | Raise e, (Raise e', _) => e = e'
  | _, _ => False
  end.
Proof.
  destruct (BpsHeap.load_bps_cleaned paths w) as [o w1] eqn:Hrun.
  unfold BpsHeap.load_bps_cleaned in Hrun. unfold attempt. simpl config_key.
  unfold bind at 1 in Hrun. cbn [py_print] in Hrun. unfold bind at 1, lift at 1 in Hrun.
  destruct (dict_getitem paths "bps") as [path|];
    [|injection Hrun as <- <-; reflexivity].
  cbn [obind]. unfold bind at 1 in Hrun. rewrite bps_heap_read_run in Hrun.
  cbn [files stdout heap] in Hrun.
  destruct (read_in Bps (files w) path) as [raw|];
    [|injection Hrun as <- <-; reflexivity].
  cbn [obind clean].
  unfold bind at 1 in Hrun. cbn [py_print files stdout heap] in Hrun.
  unfold bind at 1 in Hrun. cbn [py_print files stdout heap] in Hrun.
  unfold bind at 1 in Hrun.
  rewrite (bps_heap_clean_run _ _ raw) in Hrun by apply list_lookup_middle, eq_refl.
  cbn [files stdout heap] in Hrun.
  destruct (BpsLoader._clean_data raw) as [out|];
    [|injection Hrun as <- <-; reflexivity].
  unfold bind, py_print, ret in Hrun. cbn [files stdout heap] in Hrun.
  injection Hrun as <- <-. cbn [heap].
  split; [apply list_lookup_middle, eq_refl|].
  rewrite length_app, length_insert, !length_app. simpl. lia.
Qed.

Lemma bps_heap_cleaned_run `{Pandas} paths w cleaned_df w1 :
  BpsHeap.load_bps_cleaned paths w = (Return cleaned_df, w1) ->
  exists df, heap w1 !! cleaned_df = Some df /\
             attempt Bps paths (files w) = Return df.
Proof.
  intros Hrun. pose proof (bps_heap_cleaned_refines paths w) as Href.
  rewrite Hrun in Href.
  destruct (attempt Bps paths (files w)) as [out|]; [|contradiction].
  exists out. by destruct Href.
Qed.

(** The cleaned frame is there whenever the loader over values succeeds. *)
Lemma bps_heap_cleaned_total `{Pandas} paths w df :
  fst (BpsLoader.load_bps_data paths w) = Return (Some df) ->
  exists cleaned_df w1, BpsHeap.load_bps_cleaned paths w = (Return cleaned_df, w1).
Proof.
  change (fst (entry_point Bps paths w) = Return (Some df) ->
          exists cleaned_df w1, BpsHeap.load_bps_cleaned paths w = (Return cleaned_df, w1)).
  rewrite entry_point_result. pose proof (bps_heap_cleaned_refines paths w) as Href.
  destruct (attempt Bps paths (files w)) as [out|]; [|discriminate].
  intros _. destruct (BpsHeap.load_bps_cleaned paths w) as [[cleaned_df|] w1];
    [eauto|contradiction].
Qed.

(** C7: whenever the BPS loader succeeds, its [try] block has a cleaned
    frame and the entry point returns a reference to a new frame with the
    same data: the reference was not allocated before, so it is not that
    of the cleaned frame nor of any earlier one; the earlier frames are as
    they were, and storing another frame under the returned reference
    changes no other frame of the heap. *)
Theorem bps_returns_defensive_copy `{Pandas} paths w df :
  fst (BpsLoader.load_bps_data paths w) = Return (Some df) ->
  exists cleaned_df w1 bps_train_df w2,
    BpsHeap.load_bps_cleaned paths w = (Return cleaned_df, w1) /\
    BpsHeap.load_bps_data paths w = (Return (Some bps_train_df), w2) /\
    heap w1 !! cleaned_df = Some df /\
    heap w2 !! bps_train_df = Some df /\
    bps_train_df <> cleaned_df /\
    heap w1 !! bps_train_df = None /\
    (forall r, (r < length (heap w1))%nat -> heap w2 !! r = heap w1 !! r) /\
    (forall df' r, r <> bps_train_df ->
       <[bps_train_df := df']> (heap w2) !! r = heap w2 !! r).
Proof.
  intros Hload.
  destruct (bps_heap_cleaned_total _ _ _ Hload) as (cleaned_df & w1 & Hcleaned).
  destruct (bps_heap_cleaned_run _ _ _ _ Hcleaned) as (df' & Hdf & Hattempt).
  assert (df' = df) as ->.
  { change (fst (entry_point Bps paths w) = Return (Some df)) in Hload.
    rewrite entry_point_result, Hattempt in Hload. congruence. }
  exists cleaned_df, w1, (length (heap w1)),
    (mkWorld (files w1) (stdout w1) (heap w1 ++ [df])).
  split; [assumption|].
  split; [|split; [assumption|split; [|split; [|split; [|split]]]]].
  - unfold BpsHeap.load_bps_data, try_except, BpsHeap.load_bps_try, bind.
    rewrite Hcleaned, (bps_heap_copy_run _ _ _ Hdf). reflexivity.
  - cbn [heap]. apply list_lookup_middle, eq_refl.
  - apply lookup_lt_Some in Hdf. lia.
  - apply lookup_ge_None. lia.
  - intros r Hr. cbn [heap]. by apply lookup_app_l.
  - intros df' r Hr. apply list_lookup_insert_ne. congruence.
Qed.

Lemma bps_returns_defensive_copy_witness :
  let paths : gmap string string := list_to_map [("bps", "bps.csv")] in
  let w := world_of [("bps.csv", bps_fixture)] in
  let df := mkDF [0] [("date", [VDate 2024 1 1]); ("phone_number", [VInt 5551234])] in
  fst (@BpsLoader.load_bps_data (fixture_backend []) paths w) = Return (Some df) /\
  exists cleaned_df w1 bps_train_df w2,
    @BpsHeap.load_bps_cleaned (fixture_backend []) paths w = (Return cleaned_df, w1) /\
    @BpsHeap.load_bps_data (fixture_backend []) paths w
    = (Return (Some bps_train_df), w2) /\
    heap w1 !! cleaned_df = Some df /\
    heap w2 !! bps_train_df = Some df /\
    bps_train_df <> cleaned_df /\
    heap w1 !! bps_train_df = None /\
    (forall r, (r < length (heap w1))%nat -> heap w2 !! r = heap w1 !! r) /\
    (forall df' r, r <> bps_train_df ->
       <[bps_train_df := df']> (heap w2) !! r = heap w2 !! r).
Proof.
  intros paths w df. split; [reflexivity|].
  apply (@bps_returns_defensive_copy (fixture_backend []) paths w df). reflexivity.
Defined.

(** On the fixture the heap ends with the raw frame, its renamed copy,
    the cleaned frame and the returned copy, in this order. *)
Example bps_heap_fixture_run :
  let raw := mkDF [0] [("TEL", [VInt 5551234]); ("APLCTN_DT", [VDate 2024 1 1])] in
  let renamed := mkDF [0] [("phone_number", [VInt 5551234]); ("date", [VDate 2024 1 1])] in
  let out := mkDF [0] [("date", [VDate 2024 1 1]); ("phone_number", [VInt 5551234])] in
  let run := @BpsHeap.load_bps_data (fixture_backend []) (list_to_map [("bps", "bps.csv")])
               (world_of [("bps.csv", bps_fixture)]) in
  fst run = Return (Some 3%nat) /\ heap (snd run) = [raw; renamed; out; out].
Proof. vm_compute. split; reflexivity. Qed.

(** * Further properties of the loaders *)

(** ** What an entry point prints *)

(** X1: an entry point leaves the files and the heap as they are and only
    appends to standard output.  It appends its four progress lines when
    it succeeds; the first of them and the diagnostic when the key lookup
    or the read raises; the first three and the diagnostic when the clean
    step raises. *)
Theorem entry_point_trace `{Pandas} v paths w :
  snd (entry_point v paths w)
  = mkWorld (files w)
      (stdout w ++
       match dict_getitem paths (config_key v) with
       | Raise e => take 1 (progress_lines v) ++ [diagnostic v e]
       | Return path =>
           match read_in v (files w) path with
           | Raise e => take 1 (progress_lines v) ++ [diagnostic v e]
           | Return raw =>
               match clean v raw with
               | Raise e => take 3 (progress_lines v) ++ [diagnostic v e]
               | Return _ => progress_lines v
               end
           end
       end)
      (heap w).
Proof.
  destruct v; unfold entry_point, read_in, clean, config_key;
    [ unfold AlfaLoader.load_alfa_data, AlfaLoader.load_alfa_try,
        AlfaLoader.load_alfa_except
    | unfold BpsLoader.load_bps_data, BpsLoader.load_bps_try,
        BpsLoader.load_bps_except, BpsLoader._read_data
    | unfold InstallmentLoader.load_installment_data,
        InstallmentLoader.load_installment_try,
        InstallmentLoader.load_installment_except
    | unfold LizingLoader.load_lizing_data, LizingLoader.load_lizing_try,
        LizingLoader.load_lizing_except ];
    unfold try_except, bind, lift, ret, py_print, read_excel, read_csv, with_files,
      dict_getitem; simpl;
    run_entry; simpl; rewrite <- ?app_assoc; reflexivity.
Qed.

(** X2: an entry point looks up its own key only: an entry of the
    configuration under any other key changes nothing of what it returns
    or prints. *)
Theorem entry_point_other_key `{Pandas} v paths k p w :
  k <> config_key v ->
  entry_point v (<[k := p]> paths) w = entry_point v paths w.
Proof.
  intros Hk.
  destruct v; simpl in Hk;
    unfold entry_point, AlfaLoader.load_alfa_data, AlfaLoader.load_alfa_try,
      BpsLoader.load_bps_data, BpsLoader.load_bps_try,
      InstallmentLoader.load_installment_data, InstallmentLoader.load_installment_try,
      LizingLoader.load_lizing_data, LizingLoader.load_lizing_try,
      try_except, bind, lift, dict_getitem;
    rewrite lookup_insert_ne by exact Hk; reflexivity.
Qed.

Lemma entry_point_other_key_witness :
  let paths : gmap string string := list_to_map [("alfa", "missing.xlsx")] in
  "bps" <> config_key Alfa /\
  @entry_point (fixture_backend []) Alfa (<["bps" := "bps.csv"]> paths) (world_of [])
  = @entry_point (fixture_backend []) Alfa paths (world_of []).
Proof.
  intros paths. split; [discriminate|].
  apply (@entry_point_other_key (fixture_backend []) Alfa paths "bps" "bps.csv"
           (world_of [])).
  discriminate.
Defined.

(** ** When the clean step succeeds *)

Lemma canonical_is_target v l :
  l ∈ canonical v ->
  exists src, src ∈ source_labels v /\ rename_label (mapper_of v) src = l.
Proof.
  intros Hl. destruct v; simpl in Hl;
    repeat (apply elem_of_cons in Hl as [->|Hl]); try (by inversion Hl);
    unfold source_labels;
    first [ eexists; split; [left|]; vm_compute; reflexivity
          | eexists; split; [right; left|]; vm_compute; reflexivity
          | eexists; split; [right; right; left|]; vm_compute; reflexivity ].
Qed.

(** X3: the clean step of a variant accepts a record set exactly when,
    for each of its source labels, the set has a column under that label
    or one already under the canonical name it is renamed to; otherwise
    it raises [KeyError]. *)
Theorem clean_succeeds_iff v df :
  ((exists out, clean v df = Return out) <->
   (forall src, src ∈ source_labels v ->
      src ∈ labels df \/ rename_label (mapper_of v) src ∈ labels df)) /\
  (forall e, clean v df = Raise e -> exn_cls e = KeyError).
Proof.
  split; [split|].
  - intros [out Hclean] src Hsrc. apply clean_Return in Hclean as [Hall _].
    specialize (Hall _ (target_canonical v src Hsrc)).
    apply list_elem_of_fmap in Hall as (l & Heq & Hl).
    symmetry in Heq. apply renamed_to_target in Heq as [->| ->]; auto.
  - intros Hall.
    assert (forall l, l ∈ canonical v -> l ∈ rename_label (mapper_of v) <$> labels df)
      as Hcanon.
    { intros l Hl. destruct (canonical_is_target v l Hl) as (src & Hsrc & <-).
      destruct (Hall src Hsrc) as [Hin|Hin].
      - by apply list_elem_of_fmap_2.
      - apply list_elem_of_fmap. exists (rename_label (mapper_of v) src).
        split; [|assumption]. symmetry. apply canonical_not_renamed.
        by apply target_canonical. }
    eexists. apply clean_Return. split; [exact Hcanon|reflexivity].
  - intros e He. by apply clean_Raise in He as [? _].
Qed.

Lemma clean_succeeds_iff_witness :
  let df := mkDF [0] [("phone_number", [VInt 5551234]);
                      ("Дата заключения", [VStr "2024-01-01"])] in
  (forall src, src ∈ source_labels Lizing ->
     src ∈ labels df \/ rename_label (mapper_of Lizing) src ∈ labels df) /\
  exists out, clean Lizing df = Return out.
Proof.
  intros df.
  assert (forall src, src ∈ source_labels Lizing ->
            src ∈ labels df \/ rename_label (mapper_of Lizing) src ∈ labels df) as Hall.
  { intros src Hsrc. simpl in Hsrc.
    repeat (apply elem_of_cons in Hsrc as [->|Hsrc]); try (by inversion Hsrc).
    - right. apply (bool_decide_unpack _). vm_compute. exact I.
    - left. apply (bool_decide_unpack _). vm_compute. exact I. }
  split; [exact Hall|].
  apply (proj2 (proj1 (clean_succeeds_iff Lizing df)) Hall).
Defined.

(** ** What the clean step keeps *)

Lemma labelled_insert_other l (xs ys : list column) c :
  c.1 <> l -> labelled l (xs ++ c :: ys) = labelled l (xs ++ ys).
Proof.
  intros Hne. rewrite !labelled_app. f_equal.
  unfold labelled. rewrite filter_cons. by rewrite decide_False.
Qed.

Lemma getitem_columns_insert_other key idx (xs ys : list column) c :
  c.1 ∉ key ->
  getitem_columns key (mkDF idx (xs ++ c :: ys)) = getitem_columns key (mkDF idx (xs ++ ys)).
Proof.
  intros Hc. unfold getitem_columns. cbn [columns index].
  assert (forall ks, ks ⊆ key ->
            missing_labels ks (xs ++ c :: ys) = missing_labels ks (xs ++ ys) /\
            take_columns ks (xs ++ c :: ys) = take_columns ks (xs ++ ys)) as Hks.
  { induction ks as [|k ks IH]; intros Hsub; [split; reflexivity|].
    assert (c.1 <> k) as Hne by (intros Heq; apply Hc; rewrite Heq; apply Hsub; left).
    destruct IH as [IHm IHt]; [intros x Hx; apply Hsub; by right|].
    split.
    - unfold missing_labels in *. rewrite !filter_cons, IHm.
      rewrite (labelled_insert_other k xs ys c Hne). reflexivity.
    - rewrite !take_columns_cons, IHt, (labelled_insert_other k xs ys c Hne). reflexivity. }
  destruct (Hks key) as [-> ->]; reflexivity.
Qed.

(** X4: a column that is not renamed to a canonical name has no effect
    on the clean step: with or without it, wherever it stands, the step
    returns the same record set or raises the same error. *)
Theorem clean_ignores_unrelated_column v idx (xs ys : list column) c :
  rename_label (mapper_of v) c.1 ∉ canonical v ->
  clean v (mkDF idx (xs ++ c :: ys)) = clean v (mkDF idx (xs ++ ys)).
Proof.
  intros Hc. rewrite !clean_unfold. unfold rename. cbn [index columns].
  rewrite !fmap_app, fmap_cons. by apply getitem_columns_insert_other.
Qed.

Lemma clean_ignores_unrelated_column_witness :
  let phone : column := ("Phone", [VInt 5551234]) in
  let note : column := ("Comment", [VStr "call back"]) in
  let rest : list column := [("Date", [VStr "2024-01-01"]);
                             ("Identification number", [VStr "AB1"])] in
  (rename_label (mapper_of Alfa) note.1 ∉ canonical Alfa) /\
  clean Alfa (mkDF [0] ([phone] ++ note :: rest)) = clean Alfa (mkDF [0] ([phone] ++ rest)).
Proof.
  intros phone note rest.
  assert (rename_label (mapper_of Alfa) note.1 ∉ canonical Alfa) as Hnote
    by (apply (bool_decide_unpack _); vm_compute; exact I).
  split; [exact Hnote|].
  exact (clean_ignores_unrelated_column Alfa [0] [phone] rest note Hnote).
Defined.

Lemma labelled_singleton l (cols : list column) :
  NoDup cols.*1 -> (length (labelled l cols) <= 1)%nat.
Proof.
  unfold labelled. induction cols as [|c cols IH]; intros Hnd; [simpl; lia|].
  rewrite fmap_cons in Hnd. apply NoDup_cons in Hnd as [Hc Hnd].
  rewrite filter_cons. destruct (decide (c.1 = l)) as [<-|Hne]; [|auto].
  apply labelled_nil_iff in Hc. unfold labelled in Hc. rewrite Hc. simpl. lia.
Qed.

Lemma labelled_Permutation l (cols cols' : list column) :
  NoDup cols.*1 -> cols ≡ₚ cols' -> labelled l cols = labelled l cols'.
Proof.
  intros Hnd Hperm.
  assert (labelled l cols ≡ₚ labelled l cols') as Hl
    by (unfold labelled; by rewrite Hperm).
  pose proof (labelled_singleton l cols Hnd) as Hlen.
  destruct (labelled l cols) as [|c [|c' r]]; simpl in Hlen; [| |lia].
  - by apply Permutation_nil_l.
  - by apply Permutation_singleton_l.
Qed.

(** X5: when renaming leaves no label repeated, the order of the columns
    in the raw record set does not matter: the clean step gives the same
    for any rearrangement of them. *)
Theorem clean_column_order_irrelevant v idx (cols cols' : list column) :
  NoDup (rename_label (mapper_of v) <$> cols.*1) ->
  cols ≡ₚ cols' ->
  clean v (mkDF idx cols) = clean v (mkDF idx cols').
Proof.
  intros Hnd Hperm. rewrite !clean_unfold. unfold getitem_columns, rename.
  cbn [index columns].
  set (f := fun c : column => (rename_label (mapper_of v) c.1, c.2)).
  assert (NoDup (f <$> cols).*1) as Hnd'.
  { rewrite <- list_fmap_compose. rewrite <- list_fmap_compose in Hnd. exact Hnd. }
  assert (f <$> cols ≡ₚ f <$> cols') as Hperm' by (by apply fmap_Permutation).
  assert (forall l, labelled l (f <$> cols) = labelled l (f <$> cols')) as Hlab
    by (intros l; by apply labelled_Permutation).
  assert (forall ks, missing_labels ks (f <$> cols) = missing_labels ks (f <$> cols') /\
                     take_columns ks (f <$> cols) = take_columns ks (f <$> cols')) as Hks.
  { induction ks as [|k ks [IHm IHt]]; [split; reflexivity|]. split.
    - unfold missing_labels in *. rewrite !filter_cons, IHm, Hlab. reflexivity.
    - rewrite !take_columns_cons, IHt, Hlab. reflexivity. }
  destruct (Hks (canonical v)) as [-> ->]. reflexivity.
Qed.

Lemma clean_column_order_irrelevant_witness :
  let tel : column := ("TEL", [VInt 5551234]) in
  let dt : column := ("APLCTN_DT", [VDate 2024 1 1]) in
  NoDup (rename_label (mapper_of Bps) <$> [tel; dt].*1) /\
  [tel; dt] ≡ₚ [dt; tel] /\
  clean Bps (mkDF [0] [tel; dt]) = clean Bps (mkDF [0] [dt; tel]).
Proof.
  intros tel dt.
  assert (NoDup (rename_label (mapper_of Bps) <$> [tel; dt].*1)) as Hnd
    by (apply (bool_decide_unpack _); vm_compute; exact I).
  assert ([tel; dt] ≡ₚ [dt; tel]) as Hperm by apply Permutation_swap.
  split; [exact Hnd|]. split; [exact Hperm|].
  exact (clean_column_order_irrelevant Bps [0] [tel; dt] [dt; tel] Hnd Hperm).
Defined.

(** X6: the columns of a cleaned record set are exactly the raw columns
    whose renamed label is canonical, each with its cells and under its
    renamed label: none of them is dropped and none is made up. *)
Theorem clean_keeps_exactly v df out c :
  clean v df = Return out ->
  (c ∈ columns out <->
   exists c0, c0 ∈ columns df /\ c = (rename_label (mapper_of v) c0.1, c0.2) /\
              rename_label (mapper_of v) c0.1 ∈ canonical v).
Proof.
  intros Hclean. apply clean_Return in Hclean as [_ ->]. cbn [columns rename].
  rewrite elem_of_take_columns, list_elem_of_fmap. split.
  - intros [(c0 & -> & Hc0) Hcanon]. exists c0. auto.
  - intros (c0 & Hc0 & -> & Hcanon). split; [|exact Hcanon]. exists c0. auto.
Qed.

Lemma clean_keeps_exactly_witness :
  let raw := mkDF [0] [("Мобильный телефон", [VInt 5551234]); ("phone_number", [VInt 7]);
                       ("Дата заключения", [VStr "2024-01-01"])] in
  let out := mkDF [0] [("date", [VStr "2024-01-01"]); ("phone_number", [VInt 5551234]);
                       ("phone_number", [VInt 7])] in
  clean Lizing raw = Return out /\
  (("phone_number", [VInt 7]) ∈ columns out <->
   exists c0, c0 ∈ columns raw /\
              ("phone_number", [VInt 7]) = (rename_label (mapper_of Lizing) c0.1, c0.2) /\
              rename_label (mapper_of Lizing) c0.1 ∈ canonical Lizing).
Proof.
  intros raw out. split; [reflexivity|].
  apply (clean_keeps_exactly Lizing raw out ("phone_number", [VInt 7])). reflexivity.
Defined.

(** X7: cleaning keeps a record set rectangular: if every raw column
    has one cell per row, so has every column of the result. *)
Theorem clean_keeps_rectangular v df out :
  clean v df = Return out -> rectangular df -> rectangular out.
Proof.
  intros Hclean Hrect. apply clean_Return in Hclean as [_ ->].
  unfold rectangular, nrows in *. cbn [columns index rename].
  apply Forall_forall. intros c Hc.
  apply elem_of_take_columns in Hc as [Hc _].
  apply list_elem_of_fmap in Hc as (c0 & -> & Hc0). simpl.
  rewrite Forall_forall in Hrect. by apply Hrect.
Qed.

Lemma clean_keeps_rectangular_witness :
  let raw := mkDF [0; 1] [("TEL", [VInt 1; VInt 2]);
                          ("APLCTN_DT", [VDate 2024 1 1; VDate 2024 1 2])] in
  let out := mkDF [0; 1] [("date", [VDate 2024 1 1; VDate 2024 1 2]);
                          ("phone_number", [VInt 1; VInt 2])] in
  clean Bps raw = Return out /\ rectangular raw /\ rectangular out.
Proof.
  intros raw out.
  assert (rectangular raw) as Hraw by (repeat constructor).
  split; [reflexivity|]. split; [exact Hraw|].
  exact (clean_keeps_rectangular Bps raw out eq_refl Hraw).
Defined.

(** ** The Installment loader *)

Lemma labelled_unique_elem l cells (cols : list column) :
  NoDup cols.*1 -> (l, cells) ∈ cols -> labelled l cols = [(l, cells)].
Proof.
  intros Hnd Hin. pose proof (labelled_singleton l cols Hnd) as Hlen.
  assert ((l, cells) ∈ labelled l cols) as Hl by (apply list_elem_of_filter; auto).
  destruct (labelled l cols) as [|c [|c' r]]; simpl in Hlen; [inversion Hl| |lia].
  apply list_elem_of_singleton in Hl. by subst.
Qed.

Lemma read_excel_in_mangled `{Pandas} fs path sheet_name header df :
  read_excel_in fs path sheet_name header = Return df -> NoDup (labels df).
Proof.
  unfold read_excel_in. destruct (open_file fs path); simpl; [|discriminate].
  apply parse_sheet_mangled.
Qed.

(** X8: the Installment loader restricts the sheet to its two source
    columns before cleaning.  When the sheet has both, the entry point
    returns the sale-date cells as [date] and the subscriber-number cells
    as [phone_number], whatever else the sheet holds; when the sheet
    lacks one of them it returns [None], even if the sheet has a column
    already under a canonical name. *)
Theorem installment_needs_source_columns `{Pandas} paths w path sheet :
  paths !! "installment" = Some path ->
  read_excel_in (files w) path "Лист1" 0 = Return sheet ->
  (forall phones dates,
     (InstallmentLoader.phone_label, phones) ∈ columns sheet ->
     (InstallmentLoader.date_label, dates) ∈ columns sheet ->
     fst (InstallmentLoader.load_installment_data paths w)
     = Return (Some (mkDF (index sheet) [("date", dates); ("phone_number", phones)]))) /\
  (InstallmentLoader.phone_label ∉ labels sheet \/
   InstallmentLoader.date_label ∉ labels sheet ->
   fst (InstallmentLoader.load_installment_data paths w) = Return None).
Proof.
  intros Hkey Hread.
  change (InstallmentLoader.load_installment_data paths w)
    with (entry_point Installment paths w).
  rewrite entry_point_result. unfold attempt, dict_getitem. simpl config_key.
  rewrite Hkey. cbn [obind read_in]. rewrite Hread. cbn [obind]. split.
  - intros phones dates Hphones Hdates.
    pose proof (read_excel_in_mangled _ _ _ _ _ Hread) as Hnd.
    unfold getitem_columns, missing_labels. rewrite !filter_cons, filter_nil.
    unfold take_columns. cbn [mbind list_bind].
    rewrite (labelled_unique_elem _ phones _ Hnd Hphones).
    rewrite (labelled_unique_elem _ dates _ Hnd Hdates).
    rewrite !decide_False by discriminate. vm_compute. reflexivity.
  - intros Hmissing.
    destruct (getitem_columns _ sheet) as [restricted|e] eqn:Hget; [|reflexivity].
    exfalso. apply getitem_columns_Return in Hget as [Hall _].
    destruct Hmissing as [Hno|Hno]; apply Hno, Hall.
    + left.
    + right. left.
Qed.

Lemma installment_needs_source_columns_witness :
  let sheet := mkDF [0] [("Дата продажи", [VStr "2024-01-01"]); ("Тариф", [VStr "A"]);
                         ("Действующий абонентский номер", [VInt 5551234])] in
  let backend := fixture_backend [("workbook", "Лист1", sheet)] in
  let paths : gmap string string := list_to_map [("installment", "i.xlsx")] in
  let w := world_of [("i.xlsx", "workbook")] in
  paths !! "installment" = Some "i.xlsx" /\
  @read_excel_in backend (files w) "i.xlsx" "Лист1" 0 = Return sheet /\
  fst (@InstallmentLoader.load_installment_data backend paths w)
  = Return (Some (mkDF [0] [("date", [VStr "2024-01-01"]);
                            ("phone_number", [VInt 5551234])])).
Proof.
  intros sheet backend paths w.
  assert (paths !! "installment" = Some "i.xlsx") as Hkey by reflexivity.
  assert (@read_excel_in backend (files w) "i.xlsx" "Лист1" 0 = Return sheet) as Hread
    by reflexivity.
  split; [exact Hkey|]. split; [exact Hread|].
  apply (proj1 (@installment_needs_source_columns backend paths w "i.xlsx" sheet
                  Hkey Hread));
    apply (bool_decide_unpack _); vm_compute; exact I.
Defined.

(** ** The BPS loader on a readable file *)

Lemma two_labels (ls : list string) a b :
  a <> b -> NoDup ls -> (forall l, l ∈ ls <-> l = a \/ l = b) ->
  ls = [a; b] \/ ls = [b; a].
Proof.
  intros Hab Hnd Hiff.
  assert (ls ≡ₚ [a; b]) as Hperm.
  { apply NoDup_Permutation; [assumption| |].
    - apply NoDup_cons. split; [by rewrite list_elem_of_singleton|apply NoDup_singleton].
    - intros l. rewrite Hiff, elem_of_cons, list_elem_of_singleton. reflexivity. }
  pose proof (Permutation_length Hperm) as Hlen.
  destruct ls as [|x [|y [|z r]]]; simpl in Hlen; try lia.
  assert (x = a \/ x = b) as Hx by (apply Hiff; left).
  assert (y = a \/ y = b) as Hy by (apply Hiff; right; left).
  apply NoDup_cons in Hnd as [Hxy _]. rewrite list_elem_of_singleton in Hxy.
  destruct Hx as [-> | ->], Hy as [-> | ->]; auto; congruence.
Qed.

(** What the BPS read step returns, and what cleaning makes of it. *)
Lemma bps_read_shape `{Pandas} fs path raw :
  read_in Bps fs path = Return raw ->
  exists tels dates,
    (columns raw = [("TEL", tels); ("APLCTN_DT", dates)] \/
     columns raw = [("APLCTN_DT", dates); ("TEL", tels)]) /\
    clean Bps raw = Return (mkDF (index raw) [("date", dates); ("phone_number", tels)]).
Proof.
  cbn [read_in]. unfold read_csv_in.
  destruct (open_file fs path) as [content|]; [|discriminate]. cbn [obind]. intros Hparse.
  destruct (parse_csv_labels _ _ _ _ _ _ Hparse) as [Hnd Hiff].
  assert (labels raw = ["TEL"; "APLCTN_DT"] \/ labels raw = ["APLCTN_DT"; "TEL"]) as Hlabels.
  { apply two_labels; [discriminate|assumption|].
    intros l. rewrite Hiff. unfold BpsLoader.columns_to_use.
    rewrite !elem_of_cons, elem_of_nil. tauto. }
  destruct raw as [idx cols]. unfold labels in Hlabels. cbn [columns index] in *.
  destruct Hlabels as [Hl|Hl];
    destruct cols as [|[l1 c1] [|[l2 c2] [|c3 r]]]; try discriminate;
    injection Hl as -> ->.
  - exists c1, c2. split; [by left|reflexivity].
  - exists c2, c1. split; [by right|reflexivity].
Qed.

(** X9: when the BPS read step succeeds, cleaning cannot fail: the entry
    point returns the rows of the frame read, with its APLCTN_DT column
    as [date] and its TEL column as [phone_number], in this order
    whichever comes first in the file.  So for a plain file whose header
    has TEL and APLCTN_DT and whose TEL fields are decimal integers of
    64 bits, the entry point returns one row per record, with the dates
    read from the APLCTN_DT fields and the integers of the TEL fields. *)
Theorem bps_loads_what_it_reads `{Pandas} paths w path :
  paths !! "bps" = Some path ->
  (forall raw,
     read_in Bps (files w) path = Return raw ->
     exists tels dates,
       ("TEL", tels) ∈ columns raw /\
       ("APLCTN_DT", dates) ∈ columns raw /\
       fst (BpsLoader.load_bps_data paths w)
       = Return (Some (mkDF (index raw) [("date", dates); ("phone_number", tels)]))) /\
  (forall content header_line body i j (zs : list Z),
     files w !! path = Some content ->
     plain_text content = true ->
     csv_lines content = header_line :: body ->
     well_shaped ";" header_line body ->
     split_on ";" header_line !! i = Some "TEL" ->
     split_on ";" header_line !! j = Some "APLCTN_DT" ->
     mapM int64_literal (field ";" i <$> body) = Some zs ->
     fst (BpsLoader.load_bps_data paths w)
     = Return (Some (mkDF (seqZ 0 (Z.of_nat (length body)))
                          [("date", bps_date_cells j body);
                           ("phone_number", VInt <$> zs)]))).
Proof.
  intros Hkey.
  assert (forall raw,
            read_in Bps (files w) path = Return raw ->
            exists tels dates,
              (columns raw = [("TEL", tels); ("APLCTN_DT", dates)] \/
               columns raw = [("APLCTN_DT", dates); ("TEL", tels)]) /\
              fst (BpsLoader.load_bps_data paths w)
              = Return (Some (mkDF (index raw) [("date", dates); ("phone_number", tels)])))
    as Hgeneral.
  { intros raw Hread.
    destruct (bps_read_shape _ _ _ Hread) as (tels & dates & Hcols & Hclean).
    exists tels, dates. split; [exact Hcols|].
    change (BpsLoader.load_bps_data paths w) with (entry_point Bps paths w).
    rewrite entry_point_result. unfold attempt, dict_getitem. simpl config_key.
    rewrite Hkey. cbn [obind]. rewrite Hread. cbn [obind]. rewrite Hclean. reflexivity. }
  split.
  - intros raw Hread. destruct (Hgeneral raw Hread) as (tels & dates & Hcols & Hload).
    exists tels, dates.
    split; [destruct Hcols as [-> | ->]; [left|right; left]|].
    split; [destruct Hcols as [-> | ->]; [right; left|left]|exact Hload].
  - intros content header_line body i j zs Hfile Hplain Hlines Hshape Hi Hj Hzs.
    destruct (bps_read_plain _ _ _ _ _ _ _ _ Hfile Hplain Hlines Hshape Hi Hj Hzs)
      as (raw & Hread & Hidx & Htel & Hdate).
    destruct (Hgeneral raw Hread) as (tels & dates & Hcols & ->).
    rewrite Hidx.
    assert (tels = VInt <$> zs /\ dates = bps_date_cells j body) as [-> ->];
      [|reflexivity].
    destruct Hcols as [Hcols|Hcols]; rewrite Hcols in Htel, Hdate;
      repeat (apply elem_of_cons in Htel as [Htel|Htel]; [try discriminate|]);
      try (by inversion Htel);
      repeat (apply elem_of_cons in Hdate as [Hdate|Hdate]; [try discriminate|]);
      try (by inversion Hdate);
      injection Htel as <-; injection Hdate as <-; split; reflexivity.
Qed.

Lemma bps_loads_what_it_reads_witness :
  let content := "APLCTN_DT;PD;TEL
2024-01-01;3;5551234

2024-01-02;4;5550000
" in
  let paths : gmap string string := list_to_map [("bps", "bps.csv")] in
  let w := world_of [("bps.csv", content)] in
  let body := ["2024-01-01;3;5551234"; "2024-01-02;4;5550000"] in
  paths !! "bps" = Some "bps.csv" /\
  files w !! "bps.csv" = Some content /\
  plain_text content = true /\
  csv_lines content = "APLCTN_DT;PD;TEL" :: body /\
  well_shaped ";" "APLCTN_DT;PD;TEL" body /\
  mapM int64_literal (field ";" 2 <$> body) = Some [5551234; 5550000] /\
  fst (@BpsLoader.load_bps_data (fixture_backend []) paths w)
  = Return (Some (mkDF [0; 1] [("date", [VDate 2024 1 1; VDate 2024 1 2]);
                               ("phone_number", [VInt 5551234; VInt 5550000])])).
Proof.
  intros content paths w body.
  assert (paths !! "bps" = Some "bps.csv") as Hkey by reflexivity.
  assert (files w !! "bps.csv" = Some content) as Hfile by reflexivity.
  assert (plain_text content = true) as Hplain by reflexivity.
  assert (csv_lines content = "APLCTN_DT;PD;TEL" :: body) as Hlines
    by (vm_compute; reflexivity).
  assert (well_shaped ";" "APLCTN_DT;PD;TEL" body) as Hshape
    by (apply (bool_decide_unpack _); vm_compute; exact I).
  assert (mapM int64_literal (field ";" 2 <$> body) = Some [5551234; 5550000]) as Hzs
    by (vm_compute; reflexivity).
  repeat (split; [assumption|]).
  exact (proj2 (@bps_loads_what_it_reads (fixture_backend []) paths w "bps.csv" Hkey)
           content "APLCTN_DT;PD;TEL" body 2%nat 0%nat [5551234; 5550000]
           Hfile Hplain Hlines Hshape eq_refl eq_refl Hzs).
Defined.

(** ** The BPS loader on a malformed file *)

Lemma bps_parse_failure `{Pandas} paths w path content e :
  paths !! "bps" = Some path ->
  files w !! path = Some content ->
  parse_csv content ";" BpsLoader.columns_to_use BpsLoader.data_types
            BpsLoader.parse_dates = Raise e ->
  fst (BpsLoader.load_bps_data paths w) = Return None.
Proof.
  intros Hkey Hfile Hparse.
  change (BpsLoader.load_bps_data paths w) with (entry_point Bps paths w).
  rewrite entry_point_result. unfold attempt, dict_getitem. simpl config_key.
  rewrite Hkey. cbn [obind read_in]. unfold read_csv_in, open_file.
  rewrite Hfile. cbn [obind]. rewrite Hparse. reflexivity.
Qed.

(** X10: for a plain file, the BPS entry point returns [None] when the
    file has no line other than blank ones, and when the file is well
    shaped and its header lacks TEL or APLCTN_DT. *)
Theorem bps_rejects_malformed_file `{Pandas} paths w path content :
  paths !! "bps" = Some path ->
  files w !! path = Some content ->
  plain_text content = true ->
  (csv_lines content = [] ->
   fst (BpsLoader.load_bps_data paths w) = Return None) /\
  (forall header_line body,
     csv_lines content = header_line :: body ->
     well_shaped ";" header_line body ->
     "TEL" ∉ split_on ";" header_line \/ "APLCTN_DT" ∉ split_on ";" header_line ->
     fst (BpsLoader.load_bps_data paths w) = Return None).
Proof.
  intros Hkey Hfile Hplain. split.
  - intros Hlines. eapply bps_parse_failure; [eassumption|eassumption|].
    unfold parse_csv, parse_csv_plain. rewrite Hplain, Hlines. reflexivity.
  - intros header_line body Hlines Hshape Hmissing.
    assert (exists m ms, filter (fun u => u ∉ split_on ";" header_line)
                                BpsLoader.columns_to_use = m :: ms) as (m & ms & Hf).
    { destruct (filter _ BpsLoader.columns_to_use) as [|m ms] eqn:Hf; [|eauto].
      exfalso.
      assert (forall u, u ∈ BpsLoader.columns_to_use -> u ∈ split_on ";" header_line) as Hall.
      { intros u Hu. apply dec_stable. intros Hnot.
        assert (u ∈ filter (fun u => u ∉ split_on ";" header_line)
                           BpsLoader.columns_to_use) as Hin
          by (apply list_elem_of_filter; auto).
        rewrite Hf in Hin. inversion Hin. }
      destruct Hmissing as [Hno|Hno]; apply Hno, Hall; [left|right; left]. }
    eapply bps_parse_failure; [eassumption|eassumption|].
    unfold parse_csv, parse_csv_plain. rewrite Hplain, Hlines.
    rewrite decide_True by assumption. cbn zeta. rewrite Hf. reflexivity.
Qed.

Lemma bps_rejects_malformed_file_witness :
  let content := "PHONE;APLCTN_DT
5551234;2024-01-01
" in
  let paths : gmap string string := list_to_map [("bps", "bps.csv")] in
  let w := world_of [("bps.csv", content)] in
  paths !! "bps" = Some "bps.csv" /\
  files w !! "bps.csv" = Some content /\
  plain_text content = true /\
  csv_lines content = ["PHONE;APLCTN_DT"; "5551234;2024-01-01"] /\
  well_shaped ";" "PHONE;APLCTN_DT" ["5551234;2024-01-01"] /\
  fst (@BpsLoader.load_bps_data (fixture_backend []) paths w) = Return None.
Proof.
  intros content paths w.
  assert (paths !! "bps" = Some "bps.csv") as Hkey by reflexivity.
  assert (files w !! "bps.csv" = Some content) as Hfile by reflexivity.
  assert (plain_text content = true) as Hplain by reflexivity.
  assert (csv_lines content = ["PHONE;APLCTN_DT"; "5551234;2024-01-01"]) as Hlines
    by (vm_compute; reflexivity).
  assert (well_shaped ";" "PHONE;APLCTN_DT" ["5551234;2024-01-01"]) as Hshape
    by (apply (bool_decide_unpack _); vm_compute; exact I).
  repeat (split; [assumption|]).
  apply (proj2 (@bps_rejects_malformed_file (fixture_backend []) paths w "bps.csv"
                  content Hkey Hfile Hplain)
           "PHONE;APLCTN_DT" ["5551234;2024-01-01"] Hlines Hshape).
  left. apply (bool_decide_unpack _). vm_compute. exact I.
Defined.

(** ** The BPS clean step over references *)

(** X11: the BPS clean step does not modify the frame it is given nor
    any other frame there was: it works on a copy.  When it returns, its
    result is a reference that was not allocated before and holds what
    the clean step over values gives; it raises exactly when that one
    does.  It prints nothing and touches no file. *)
Theorem bps_clean_leaves_input input_df w df :
  heap w !! input_df = Some df ->
  exists o w',
    BpsHeap._clean_data input_df w = (o, w') /\
    files w' = files w /\ stdout w' = stdout w /\
    heap w' !! input_df = Some df /\
    (forall r, (r < length (heap w))%nat -> heap w' !! r = heap w !! r) /\
    match o with
    | Return cleaned =>
        exists out, BpsLoader._clean_data df = Return out /\
                    heap w' !! cleaned = Some out /\
                    heap w !! cleaned = None
    | Raise e => BpsLoader._clean_data df = Raise e
    end.
Proof.
  intros Hin. pose proof (lookup_lt_Some _ _ _ Hin) as Hlt.
  rewrite (bps_heap_clean_run _ _ _ Hin).
  assert (forall r, (r < length (heap w))%nat ->
            <[length (heap w) := rename BpsLoader.renamed_columns df]> (heap w ++ [df]) !! r
            = heap w !! r) as Hframe.
  { intros r Hr. rewrite list_lookup_insert_ne by lia. by apply lookup_app_l. }
  assert (length (<[length (heap w) := rename BpsLoader.renamed_columns df]>
                    (heap w ++ [df])) = S (length (heap w))) as Hlen
    by (rewrite length_insert, length_app; simpl; lia).
  destruct (BpsLoader._clean_data df) as [out|e]; eexists _, _;
    (split; [reflexivity|]); cbn [files stdout heap];
    split; try reflexivity; split; try reflexivity.
  - split; [rewrite lookup_app_l by lia; rewrite Hframe by lia; assumption|].
    split; [intros r Hr; rewrite lookup_app_l by lia; by apply Hframe|].
    exists out. split; [reflexivity|].
    split; [apply list_lookup_middle, eq_refl|]. apply lookup_ge_None. lia.
  - split; [rewrite Hframe by lia; assumption|]. split; [exact Hframe|reflexivity].
Qed.

Lemma bps_clean_leaves_input_witness :
  let raw := mkDF [0] [("TEL", [VInt 5551234]); ("APLCTN_DT", [VDate 2024 1 1])] in
  let w := mkWorld ∅ [] [raw] in
  heap w !! 0%nat = Some raw /\
  exists o w',
    BpsHeap._clean_data 0%nat w = (o, w') /\
    files w' = files w /\ stdout w' = stdout w /\
    heap w' !! 0%nat = Some raw /\
    (forall r, (r < length (heap w))%nat -> heap w' !! r = heap w !! r) /\
    match o with
    | Return cleaned =>
        exists out, BpsLoader._clean_data raw = Return out /\
                    heap w' !! cleaned = Some out /\
                    heap w !! cleaned = None
    | Raise e => BpsLoader._clean_data raw = Raise e
    end.
Proof.
  intros raw w. split; [reflexivity|].
  apply (bps_clean_leaves_input 0%nat w raw). reflexivity.
Defined.

(** ** The Alfa and Lizing loaders on a sheet with the source columns *)

Lemma labelled_renamed v src cells (cols : list column) :
  NoDup cols.*1 -> src ∈ source_labels v -> (src, cells) ∈ cols ->
  rename_label (mapper_of v) src ∉ cols.*1 ->
  labelled (rename_label (mapper_of v) src)
           ((fun c : column => (rename_label (mapper_of v) c.1, c.2)) <$> cols)
  = [(rename_label (mapper_of v) src, cells)].
Proof.
  intros Hnd Hsrc Hin Htarget.
  set (f := fun c : column => (rename_label (mapper_of v) c.1, c.2)).
  assert (labelled (rename_label (mapper_of v) src) (f <$> cols)
          = f <$> labelled src cols) as ->.
  { clear Hnd Hin. unfold labelled. induction cols as [|c cols IH]; [reflexivity|].
    rewrite fmap_cons in Htarget. apply not_elem_of_cons in Htarget as [Hc Htarget].
    rewrite fmap_cons, !filter_cons. cbn [f fst].
    destruct (decide (c.1 = src)) as [Heq|Hne].
    - rewrite decide_True by (by rewrite Heq). rewrite fmap_cons, IH by assumption.
      reflexivity.
    - rewrite decide_False; [by apply IH|].
      intros Heq. apply renamed_to_target in Heq as [?|?]; [congruence|congruence|assumption]. }
  by rewrite (labelled_unique_elem src cells cols Hnd Hin).
Qed.

(** X12: when the Alfa sheet has the columns Phone, Date and
    Identification number and no column already under a canonical name,
    the entry point returns exactly three columns: the Date cells as
    [date], the Phone cells as [phone_number] and the Identification
    number cells as [identify], in this order and on the rows of the
    sheet, whatever other columns the sheet has and wherever they stand. *)
Theorem alfa_loads_source_columns `{Pandas} paths w path sheet phones dates ids :
  paths !! "alfa" = Some path ->
  read_excel_in (files w) path "Sheet1" 0 = Return sheet ->
  ("Phone", phones) ∈ columns sheet ->
  ("Date", dates) ∈ columns sheet ->
  ("Identification number", ids) ∈ columns sheet ->
  (forall l, l ∈ canonical Alfa -> l ∉ labels sheet) ->
  fst (AlfaLoader.load_alfa_data paths w)
  = Return (Some (mkDF (index sheet)
                       [("date", dates); ("phone_number", phones); ("identify", ids)])).
Proof.
  intros Hkey Hread Hphones Hdates Hids Hfree.
  pose proof (read_excel_in_mangled _ _ _ _ _ Hread) as Hnd.
  change (AlfaLoader.load_alfa_data paths w) with (entry_point Alfa paths w).
  rewrite entry_point_result. unfold attempt, dict_getitem. simpl config_key.
  rewrite Hkey. cbn [obind read_in]. rewrite Hread. cbn [obind].
  rewrite clean_unfold. unfold getitem_columns, missing_labels, take_columns, rename.
  cbn [columns index canonical mbind list_bind]. unfold AlfaLoader.selected.
  cbn [mbind list_bind]. rewrite !filter_cons, filter_nil.
  pose proof (labelled_renamed Alfa "Phone" phones _ Hnd) as Hp.
  pose proof (labelled_renamed Alfa "Date" dates _ Hnd) as Hd.
  pose proof (labelled_renamed Alfa "Identification number" ids _ Hnd) as Hi.
  change (rename_label (mapper_of Alfa) "Phone") with "phone_number" in Hp.
  change (rename_label (mapper_of Alfa) "Date") with "date" in Hd.
  change (rename_label (mapper_of Alfa) "Identification number") with "identify" in Hi.
  rewrite Hp, Hd, Hi;
    try assumption;
    try (apply Hfree; apply (bool_decide_unpack _); vm_compute; exact I);
    try (apply (bool_decide_unpack _); vm_compute; exact I).
  rewrite !decide_False by discriminate. reflexivity.
Qed.

Lemma alfa_loads_source_columns_witness :
  let sheet := mkDF [0] [("Comment", [VStr "call back"]);
                         ("Identification number", [VStr "AB1"]);
                         ("Phone", [VInt 5551234]); ("Date", [VStr "2024-01-01"])] in
  let backend := fixture_backend [("workbook", "Sheet1", sheet)] in
  let paths : gmap string string := list_to_map [("alfa", "alfa.xlsx")] in
  let w := world_of [("alfa.xlsx", "workbook")] in
  paths !! "alfa" = Some "alfa.xlsx" /\
  @read_excel_in backend (files w) "alfa.xlsx" "Sheet1" 0 = Return sheet /\
  fst (@AlfaLoader.load_alfa_data backend paths w)
  = Return (Some (mkDF [0] [("date", [VStr "2024-01-01"]); ("phone_number", [VInt 5551234]);
                            ("identify", [VStr "AB1"])])).
Proof.
  intros sheet backend paths w.
  assert (paths !! "alfa" = Some "alfa.xlsx") as Hkey by reflexivity.
  assert (@read_excel_in backend (files w) "alfa.xlsx" "Sheet1" 0 = Return sheet) as Hread
    by reflexivity.
  split; [exact Hkey|]. split; [exact Hread|].
  apply (@alfa_loads_source_columns backend paths w "alfa.xlsx" sheet
           [VInt 5551234] [VStr "2024-01-01"] [VStr "AB1"] Hkey Hread).
  - apply (bool_decide_unpack _). vm_compute. exact I.
  - apply (bool_decide_unpack _). vm_compute. exact I.
  - apply (bool_decide_unpack _). vm_compute. exact I.
  - intros l Hl. simpl in Hl.
    repeat (apply elem_of_cons in Hl as [->|Hl]); try (by inversion Hl);
      apply (bool_decide_unpack _); vm_compute; exact I.
Defined.

(** X13: when the Lizing sheet has its two source columns and no column
    already under a canonical name, the entry point returns exactly two
    columns: the contract-date cells as [date] and the mobile-phone cells
    as [phone_number], in this order and on the rows of the sheet. *)
Theorem lizing_loads_source_columns `{Pandas} paths w path sheet phones dates :
  paths !! "lizing" = Some path ->
  read_excel_in (files w) path "Sheet1" 0 = Return sheet ->
  (LizingLoader.phone_label, phones) ∈ columns sheet ->
  (LizingLoader.date_label, dates) ∈ columns sheet ->
  (forall l, l ∈ canonical Lizing -> l ∉ labels sheet) ->
  fst (LizingLoader.load_lizing_data paths w)
  = Return (Some (mkDF (index sheet) [("date", dates); ("phone_number", phones)])).
Proof.
  intros Hkey Hread Hphones Hdates Hfree.
  pose proof (read_excel_in_mangled _ _ _ _ _ Hread) as Hnd.
  change (LizingLoader.load_lizing_data paths w) with (entry_point Lizing paths w).
  rewrite entry_point_result. unfold attempt, dict_getitem. simpl config_key.
  rewrite Hkey. cbn [obind read_in]. rewrite Hread. cbn [obind].
  rewrite clean_unfold. unfold getitem_columns, missing_labels, take_columns, rename.
  cbn [columns index canonical mbind list_bind]. unfold LizingLoader.selected.
  cbn [mbind list_bind]. rewrite !filter_cons, filter_nil.
  pose proof (labelled_renamed Lizing LizingLoader.phone_label phones _ Hnd) as Hp.
  pose proof (labelled_renamed Lizing LizingLoader.date_label dates _ Hnd) as Hd.
  change (rename_label (mapper_of Lizing) LizingLoader.phone_label)
    with "phone_number" in Hp.
  change (rename_label (mapper_of Lizing) LizingLoader.date_label) with "date" in Hd.
  rewrite Hp, Hd;
    try assumption;
    try (apply Hfree; apply (bool_decide_unpack _); vm_compute; exact I);
    try (apply (bool_decide_unpack _); vm_compute; exact I).
  rewrite !decide_False by discriminate. reflexivity.
Qed.

Lemma lizing_loads_source_columns_witness :
  let sheet := mkDF [0] [("Мобильный телефон", [VInt 5551234]);
                         ("Дата заключения", [VStr "2024-01-01"]);
                         ("Менеджер", [VStr "N"])] in
  let backend := fixture_backend [("workbook", "Sheet1", sheet)] in
  let paths : gmap string string := list_to_map [("lizing", "l.xlsx")] in
  let w := world_of [("l.xlsx", "workbook")] in
  paths !! "lizing" = Some "l.xlsx" /\
  @read_excel_in backend (files w) "l.xlsx" "Sheet1" 0 = Return sheet /\
  fst (@LizingLoader.load_lizing_data backend paths w)
  = Return (Some (mkDF [0] [("date", [VStr "2024-01-01"]);
                            ("phone_number", [VInt 5551234])])).
Proof.
  intros sheet backend paths w.
  assert (paths !! "lizing" = Some "l.xlsx") as Hkey by reflexivity.
  assert (@read_excel_in backend (files w) "l.xlsx" "Sheet1" 0 = Return sheet) as Hread
    by reflexivity.
  split; [exact Hkey|]. split; [exact Hread|].
  apply (@lizing_loads_source_columns backend paths w "l.xlsx" sheet
           [VInt 5551234] [VStr "2024-01-01"] Hkey Hread).
  - apply (bool_decide_unpack _). vm_compute. exact I.
  - apply (bool_decide_unpack _). vm_compute. exact I.
  - intros l Hl. simpl in Hl.
    repeat (apply elem_of_cons in Hl as [->|Hl]); try (by inversion Hl);
      apply (bool_decide_unpack _); vm_compute; exact I.
Defined.
